(** * The GizAI chat-completion adapters (main.py and main2.py)

    A shallow embedding of the two FastAPI adapters of the repository and
    the properties their specification states about them.

    The definitions come first: the fragment of the Python runtime the two
    programs rest on (strings, JSON values, exceptions, the effects of a
    handler, what FastAPI and pydantic do around it), the adapter of
    main.py (module [Main]), the adapter of main2.py (module [Main2]), and
    the vocabulary and sample inputs of the statements.  The properties
    follow. *)

From Stdlib Require Import List ZArith NArith String Ascii Bool Lia.
From Stdlib Require Import DecimalString Floats.
Import ListNotations.

Local Open Scope Z_scope.

(** ** Python strings *)

(** A Python [str] is a sequence of Unicode code points. *)
Definition str := list N.

(** An ASCII literal of the source as a [str]. *)
Definition lit (s : string) : str := map N_of_ascii (list_ascii_of_string s).

(** The double quote, which a literal of this file cannot hold. *)
Definition dquote : str := [34%N].

(** [a == b] on strings. *)
Fixpoint str_eqb (a b : str) : bool :=
  match a, b with
  | [], [] => true
  | x :: a', y :: b' => (x =? y)%N && str_eqb a' b'
  | _, _ => false
  end.

(** [str(n)] for an [int]: the decimal digits, with a minus sign below
    zero. *)
Definition str_of_int (n : Z) : str := lit (NilZero.string_of_int (Z.to_int n)).

(** The code points [str.strip()] removes: those [str.isspace()] accepts. *)
Definition isspace (c : N) : bool :=
  ((9 <=? c) && (c <=? 13) || (28 <=? c) && (c <=? 32)
   || (c =? 133) || (c =? 160) || (c =? 5760)
   || (8192 <=? c) && (c <=? 8202)
   || (c =? 8232) || (c =? 8233) || (c =? 8239) || (c =? 8287)
   || (c =? 12288))%N.

Fixpoint lstrip (s : str) : str :=
  match s with
  | [] => []
  | c :: s' => if isspace c then lstrip s' else s
  end.

Definition rstrip (s : str) : str := rev (lstrip (rev s)).

(** [s.strip()] *)
Definition strip (s : str) : str := rstrip (lstrip s).

(** [sub in s] *)
Definition contains (sub s : str) : Prop :=
  exists pre post, s = pre ++ sub ++ post.

(** The surrogate code points, U+D800 to U+DFFF.  A [str] may hold one on
    its own ([json.loads] gives one for an escape that stands alone), and
    then [s.encode('utf-8')] raises. *)
Definition surrogate (c : N) : bool := ((55296 <=? c) && (c <=? 57343))%N.

(** [s.encode('utf-8')] succeeds. *)
Definition encodable (s : str) : bool := forallb (fun c => negb (surrogate c)) s.

(** ** Python values that JSON carries *)

#[warnings="-register-all"]
Inductive pyval : Type :=
| VNone
| VBool (b : bool)
| VInt (n : Z)
| VFloat (f : float)
| VStr (s : str)
| VList (l : list pyval)
| VDict (d : list (str * pyval)).

(** A [dict] with [str] keys, in insertion order; keys are unique. *)
Definition dict := list (str * pyval).

Fixpoint dict_get (d : dict) (k : str) : option pyval :=
  match d with
  | [] => None
  | (k', v) :: d' => if str_eqb k' k then Some v else dict_get d' k
  end.

(** [type(v).__name__] *)
Definition type_name (v : pyval) : str :=
  match v with
  | VNone => lit "NoneType"
  | VBool _ => lit "bool"
  | VInt _ => lit "int"
  | VFloat _ => lit "float"
  | VStr _ => lit "str"
  | VList _ => lit "list"
  | VDict _ => lit "dict"
  end.

(** What Starlette can render as the body of a JSON response, which it does
    with [json.dumps(v, ensure_ascii=False, allow_nan=False)] and then
    [.encode('utf-8')]: every string and key is encodable and no number is
    NaN or an infinity. *)
Fixpoint renderable (v : pyval) : bool :=
  match v with
  | VNone | VBool _ | VInt _ => true
  | VFloat f => PrimFloat.is_finite f
  | VStr s => encodable s
  | VList l => forallb renderable l
  | VDict d =>
      forallb (fun kv : str * pyval => let (k, x) := kv in encodable k && renderable x) d
  end.

(** An optional value in JSON. *)
Definition optional {A : Type} (f : A -> pyval) (o : option A) : pyval :=
  match o with
  | Some a => f a
  | None => VNone
  end.

(** ** Exceptions *)

Inductive exc : Type :=
| Exception (msg : str)
| KeyError (key : str)
| TypeError (msg : str)
| AttributeError (msg : str)
| ValidationError (title loc : str)
| ClientError (msg : str)
| HTTPException (status_code : Z) (detail : str).

(** [str(e)].  [KeyError] shows the [repr] of its key, Starlette's
    [HTTPException] shows its status and detail; of pydantic's report only
    the heading and the location are kept. *)
Definition str_exc (e : exc) : str :=
  match e with
  | Exception msg => msg
  | KeyError key => lit "'" ++ key ++ lit "'"
  | TypeError msg => msg
  | AttributeError msg => msg
  | ValidationError title loc =>
      lit "1 validation error for " ++ title ++ [10%N] ++ loc
  | ClientError msg => msg
  | HTTPException status_code detail =>
      str_of_int status_code ++ lit ": " ++ detail
  end.

Definition no_attribute (v : pyval) (attr : str) : exc :=
  AttributeError
    (lit "'" ++ type_name v ++ lit "' object has no attribute '" ++ attr
         ++ lit "'").

(** [v[key]] for a [str] key. *)
Definition subscript (v : pyval) (key : str) : exc + pyval :=
  match v with
  | VDict d =>
      match dict_get d key with
      | Some x => inr x
      | None => inl (KeyError key)
      end
  | VList _ => inl (TypeError (lit "list indices must be integers or slices, not str"))
  | VStr _ => inl (TypeError (lit "string indices must be integers, not 'str'"))
  | _ => inl (TypeError (lit "'" ++ type_name v ++ lit "' object is not subscriptable"))
  end.

(** [v.strip()] *)
Definition call_strip (v : pyval) : exc + str :=
  match v with
  | VStr s => inr (strip s)
  | _ => inl (no_attribute v (lit "strip"))
  end.

(** ** The outbound HTTP call and the effects of a handler *)

(** What [session.post(url, json=data, proxy=proxy)] sends, with the
    headers of its session. *)
Record Call : Type := mkCall {
  url : str;
  call_headers : list (str * str);
  json_data : pyval;
  call_proxy : option str
}.

(** What comes back: the status line, and what [await response.json()]
    gives, a parsed value or the exception it raises on a body that is not
    JSON. *)
Record Response : Type := mkResponse {
  status : Z;
  json : exc + pyval
}.

(** The provider, as seen from the adapter: a call either fails to get an
    answer or gets a response. *)
Definition provider := Call -> exc + Response.

(** What is written on standard output. *)
Inductive output : Type :=
| Line (s : str)
| JsonDumps (v : pyval) (indent : Z).

(** A computation that prints, posts and may raise. *)
Inductive prog (A : Type) : Type :=
| Ret (a : A)
| Raise (e : exc)
| Print (o : output) (k : prog A)
| Post (c : Call) (k : exc + Response -> prog A).

Arguments Ret {A} a.
Arguments Raise {A} e.
Arguments Print {A} o k.
Arguments Post {A} c k.

Fixpoint bind {A B : Type} (p : prog A) (f : A -> prog B) : prog B :=
  match p with
  | Ret a => f a
  | Raise e => Raise e
  | Print o k => Print o (bind k f)
  | Post c k => Post c (fun r => bind (k r) f)
  end.

(** [try: p except Exception as e: handler e] *)
Fixpoint try_except {A : Type} (p : prog A) (handler : exc -> prog A) : prog A :=
  match p with
  | Ret a => Ret a
  | Raise e => handler e
  | Print o k => Print o (try_except k handler)
  | Post c k => Post c (fun r => try_except (k r) handler)
  end.

Definition lift {A : Type} (r : exc + A) : prog A :=
  match r with
  | inl e => Raise e
  | inr a => Ret a
  end.

Declare Scope prog_scope.
Delimit Scope prog_scope with prog.
Notation "x <- p ;; q" := (bind p (fun x => q))
  (at level 61, p at next level, right associativity) : prog_scope.

Inductive event : Type :=
| Printed (o : output)
| Posted (c : Call) (r : exc + Response).

(** Running a computation against a provider: what happened, and how it
    ended. *)
Fixpoint run {A : Type} (srv : provider) (p : prog A) : list event * (exc + A) :=
  match p with
  | Ret a => ([], inr a)
  | Raise e => ([], inl e)
  | Print o k => let (t, r) := run srv k in (Printed o :: t, r)
  | Post c k => let (t, r) := run srv (k (srv c)) in (Posted c (srv c) :: t, r)
  end.

(** The outbound calls of a trace, each with what it got back. *)
Fixpoint posts (t : list event) : list (Call * (exc + Response)) :=
  match t with
  | [] => []
  | Printed _ :: t' => posts t'
  | Posted c r :: t' => (c, r) :: posts t'
  end.

Definition calls {A : Type} (srv : provider) (p : prog A) : list (Call * (exc + Response)) :=
  posts (fst (run srv p)).

Definition result {A : Type} (srv : provider) (p : prog A) : exc + A :=
  snd (run srv p).

(** ** What FastAPI sends back *)

(** A JSON body with its status, an error with its detail text, the 422
    whose body is the report of a request the request model rejects, or the
    500 with the plain text [Internal Server Error] that the server sends
    when an exception escapes, the failure to render an answer included. *)
Inductive http_response (B : Type) : Type :=
| Json (status_code : Z) (body : B)
| Detail (status_code : Z) (detail : str)
| Unprocessable
| ServerError.

Arguments Json {B} status_code body.
Arguments Detail {B} status_code detail.
Arguments Unprocessable {B}.
Arguments ServerError {B}.

Definition status_code {B : Type} (r : http_response B) : Z :=
  match r with
  | Json c _ => c
  | Detail c _ => c
  | Unprocessable => 422
  | ServerError => 500
  end.

(** How FastAPI answers for a handler that returned or raised.  A returned
    model is dumped to JSON ([dump]) and rendered: 200 with it when that
    succeeds, the server's 500 when it cannot be rendered.  An
    [HTTPException] gives its status and detail; anything else that escapes
    gives the server's 500. *)
Definition respond {B : Type} (dump : B -> pyval) (r : exc + B) : http_response B :=
  match r with
  | inr b => if renderable (dump b) then Json 200 b else ServerError
  | inl (HTTPException c d) => Detail c d
  | inl _ => ServerError
  end.

(** How FastAPI answers a body the request model rejects: 422 with the
    report of the errors, which repeats each refused input; the server's
    500 when the report cannot be rendered. *)
Definition reject {B : Type} (inputs : list pyval) : http_response B :=
  if forallb renderable inputs then Unprocessable else ServerError.

(** ** Validation by pydantic *)

(** Helpers shared by the models of both files: a field typed
    [str | None], [List | None] or [dict | None], read from a [dict] that
    may lack it; [None] of the result is a rejected input. *)
Definition optional_str (d : dict) (k : str) : option (option str) :=
  match dict_get d k with
  | None | Some VNone => Some None
  | Some (VStr s) => Some (Some s)
  | Some _ => None
  end.

Definition optional_list (d : dict) (k : str) : option (option (list pyval)) :=
  match dict_get d k with
  | None | Some VNone => Some None
  | Some (VList l) => Some (Some l)
  | Some _ => None
  end.

Definition optional_dict (d : dict) (k : str) : option (option dict) :=
  match dict_get d k with
  | None | Some VNone => Some None
  | Some (VDict x) => Some (Some x)
  | Some _ => None
  end.

Definition required_str (d : dict) (k : str) : option str :=
  match dict_get d k with
  | Some (VStr s) => Some s
  | _ => None
  end.

(** Every element validated, in order; rejected when one is. *)
Fixpoint validate_all {A : Type} (f : pyval -> option A) (l : list pyval) : option (list A) :=
  match l with
  | [] => Some []
  | v :: l' =>
      match f v, validate_all f l' with
      | Some a, Some r => Some (a :: r)
      | _, _ => None
      end
  end.

(** The input that the report of a refused field repeats: the value under
    the key, or the whole object when a required key is missing. *)
Definition refused_field {A : Type} (read : dict -> str -> option A)
    (d : dict) (k : str) : list pyval :=
  match read d k with
  | Some _ => []
  | None =>
      match dict_get d k with
      | Some x => [x]
      | None => [VDict d]
      end
  end.

(** ** main.py: the OpenAI-compatible adapter *)

Module Main.

Inductive MessageType : Type := HUMAN | AI | SYSTEM | ASSISTANT.

(** [m.value] *)
Definition value (m : MessageType) : str :=
  match m with
  | HUMAN => lit "human"
  | AI => lit "ai"
  | SYSTEM => lit "system"
  | ASSISTANT => lit "assistant"
  end.

(** What a [mode="before"] validator of a role receives and returns: a
    member of the enumeration, or any other value. *)
Inductive role_input : Type :=
| Member (m : MessageType)
| Plain (v : pyval).

(** [v == s] for a string literal [s]; a member of a [str] enumeration
    compares as its value. *)
Definition eq_str (v : role_input) (s : str) : bool :=
  match v with
  | Member m => str_eqb (value m) s
  | Plain (VStr t) => str_eqb t s
  | Plain _ => false
  end.

(** [MessageType(s)]: the member whose value is [s]. *)
Definition of_value (s : str) : option MessageType :=
  if str_eqb s (lit "human") then Some HUMAN
  else if str_eqb s (lit "ai") then Some AI
  else if str_eqb s (lit "system") then Some SYSTEM
  else if str_eqb s (lit "assistant") then Some ASSISTANT
  else None.

(** pydantic's validation of a field typed [MessageType]. *)
Definition validate_MessageType (v : role_input) : option MessageType :=
  match v with
  | Member m => Some m
  | Plain (VStr s) => of_value s
  | Plain _ => None
  end.

(** pydantic's validation of a field typed [MessageType | None]. *)
Definition validate_optional_MessageType (v : role_input) : option (option MessageType) :=
  match v with
  | Plain VNone => Some None
  | _ => option_map Some (validate_MessageType v)
  end.

Module Message.

Record t : Type := mk {
  content : option str;
  role : option MessageType;
  tool_calls : option (list pyval);
  function_call : option dict
}.

Definition map_role (v : role_input) : role_input :=
  if eq_str v (lit "user") then Member HUMAN
  else if eq_str v (lit "assistant") then Member AI
  else v.

(** The [role] field of an inbound message: the default when the key is
    absent, otherwise [map_role] and then the field's type. *)
Definition validate_role (d : dict) : option (option MessageType) :=
  match dict_get d (lit "role") with
  | None => Some None
  | Some v => validate_optional_MessageType (map_role (Plain v))
  end.

(** A message of the inbound JSON body turned into a [Message]. *)
Definition validate (v : pyval) : option t :=
  match v with
  | VDict d =>
      match optional_str d (lit "content"), validate_role d,
            optional_list d (lit "tool_calls"),
            optional_dict d (lit "function_call") with
      | Some c, Some r, Some tc, Some fc => Some (mk c r tc fc)
      | _, _, _, _ => None
      end
  | _ => None
  end.

(** What the report repeats for a refused role: the value the validator
    handed on to the type of the field. *)
Definition refused_role (d : dict) : list pyval :=
  match dict_get d (lit "role") with
  | None => []
  | Some v =>
      match validate_optional_MessageType (map_role (Plain v)) with
      | Some _ => []
      | None =>
          match map_role (Plain v) with
          | Plain w => [w]
          | Member m => [VStr (value m)]
          end
      end
  end.

(** The inputs that the report of a refused message repeats, field by
    field; none for a message that [validate] accepts. *)
Definition refused_inputs (v : pyval) : list pyval :=
  match v with
  | VDict d =>
      refused_field optional_str d (lit "content")
        ++ refused_role d
        ++ refused_field optional_list d (lit "tool_calls")
        ++ refused_field optional_dict d (lit "function_call")
  | _ => [v]
  end.

End Message.

Module ResponseMessage.

Record t : Type := mk {
  content : option str;
  role : MessageType;
  tool_calls : option (list pyval);
  function_call : option dict
}.

Definition map_role (v : role_input) : role_input :=
  if eq_str v (lit "user") then Member HUMAN
  else if eq_str v (lit "assistant") then Member ASSISTANT
  else if eq_str v (lit "system") then Member SYSTEM
  else v.

Definition validate_role (v : role_input) : option MessageType :=
  validate_MessageType (map_role v).

(** [ResponseMessage(content=content, role=role)] *)
Definition new (content : option str) (role : role_input) : exc + t :=
  match validate_role role with
  | Some r => inr (mk content r None None)
  | None => inl (ValidationError (lit "ResponseMessage") (lit "role"))
  end.

(** The message as JSON, as the response model dumps it. *)
Definition dump (m : t) : pyval :=
  VDict [ (lit "content", optional VStr (content m));
          (lit "role", VStr (value (role m)));
          (lit "tool_calls", optional VList (tool_calls m));
          (lit "function_call", optional VDict (function_call m)) ].

End ResponseMessage.

Module Choices.
Record t : Type := mk {
  finish_reason : option str;
  index : option Z;
  message : option ResponseMessage.t
}.

Definition dump (c : t) : pyval :=
  VDict [ (lit "finish_reason", optional VStr (finish_reason c));
          (lit "index", optional VInt (index c));
          (lit "message", optional ResponseMessage.dump (message c)) ].
End Choices.

Module Usage.
Record t : Type := mk {
  completion_tokens : option Z;
  prompt_tokens : option Z;
  total_tokens : option Z;
  completion_tokens_details : option (list pyval);
  prompt_tokens_details : option (list pyval)
}.

Definition dump (u : t) : pyval :=
  VDict [ (lit "completion_tokens", optional VInt (completion_tokens u));
          (lit "prompt_tokens", optional VInt (prompt_tokens u));
          (lit "total_tokens", optional VInt (total_tokens u));
          (lit "completion_tokens_details",
           optional VList (completion_tokens_details u));
          (lit "prompt_tokens_details", optional VList (prompt_tokens_details u)) ].
End Usage.

Module ChatRequest.

Record t : Type := mk {
  model : str;
  messages : list Message.t;
  temperature : option float
}.

(** The inbound body turned into a [ChatRequest]: its messages are
    validated one by one; [model] and [temperature] are taken as already
    of their types. *)
Definition validate (model : str) (messages : list pyval)
    (temperature : option float) : option t :=
  match validate_all Message.validate messages with
  | Some ms => Some (mk model ms temperature)
  | None => None
  end.

(** The inputs that the report of a refused body repeats: those of all its
    messages, pydantic collecting every error. *)
Definition refused_inputs (messages : list pyval) : list pyval :=
  flat_map Message.refused_inputs messages.

End ChatRequest.

Module ChatResponse.
Record t : Type := mk {
  id : option str;
  choices : option (list Choices.t);
  created : option Z;
  model : option str;
  object : option str;
  service_tier : option str;
  system_fingerprint : option str;
  usage : option Usage.t;
  output : option str
}.

(** The response as JSON, as [response_model=ChatResponse] dumps it: every
    field, the unset ones as null. *)
Definition dump (r : t) : pyval :=
  VDict [ (lit "id", optional VStr (id r));
          (lit "choices",
           optional (fun l => VList (map Choices.dump l)) (choices r));
          (lit "created", optional VInt (created r));
          (lit "model", optional VStr (model r));
          (lit "object", optional VStr (object r));
          (lit "service_tier", optional VStr (service_tier r));
          (lit "system_fingerprint", optional VStr (system_fingerprint r));
          (lit "usage", optional Usage.dump (usage r));
          (lit "output", optional VStr (output r)) ].
End ChatResponse.

(** The provider implementation.  An asynchronous generator is read by its
    callers up to its first item only ([async for ... break]): its value is
    that item, or [None] when it ends without yielding. *)
Module GizAI.

Definition api_endpoint : str :=
  lit "https://app.giz.ai/api/data/users/inferenceServer.infer".
Definition working : bool := true.
Definition supports_stream : bool := false.
Definition supports_system_message : bool := true.
Definition supports_message_history : bool := true.

Definition headers : list (str * str) :=
  [ (lit "Accept", lit "application/json, text/plain, */*");
    (lit "Accept-Language", lit "en-US,en;q=0.9");
    (lit "Cache-Control", lit "no-cache");
    (lit "Connection", lit "keep-alive");
    (lit "Content-Type", lit "application/json");
    (lit "DNT", lit "1");
    (lit "Origin", lit "https://app.giz.ai");
    (lit "Pragma", lit "no-cache");
    (lit "Sec-Fetch-Dest", lit "empty");
    (lit "Sec-Fetch-Mode", lit "cors");
    (lit "Sec-Fetch-Site", lit "same-origin");
    (lit "User-Agent", lit "Mozilla/5.0 (X11; Linux x86_64) AppleWebKit/537.36 (KHTML, like Gecko) Chrome/130.0.0.0 Safari/537.36");
    (lit "sec-ch-ua",
     dquote ++ lit "Not?A_Brand" ++ dquote ++ lit ";v=" ++ dquote ++ lit "99"
       ++ dquote ++ lit ", " ++ dquote ++ lit "Chromium" ++ dquote ++ lit ";v="
       ++ dquote ++ lit "130" ++ dquote);
    (lit "sec-ch-ua-mobile", lit "?0");
    (lit "sec-ch-ua-platform", dquote ++ lit "Linux" ++ dquote) ].

Definition data (model : str) (messages : list dict) : pyval :=
  VDict
    [ (lit "model", VStr (lit "chat"));
      (lit "baseModel", VStr model);
      (lit "input",
       VDict [ (lit "messages", VList (map VDict messages));
               (lit "mode", VStr (lit "chat")) ]);
      (lit "noStream", VBool true) ].

Definition create_async_generator (model : str) (messages : list dict)
    (proxy : option str) : prog (option str) :=
  Post (mkCall api_endpoint headers (data model messages) proxy)
    (fun r =>
       match r with
       | inl e => Raise e
       | inr response =>
           if status response =? 201 then
             (result <- lift (json response) ;;
              output <- lift (subscript result (lit "output")) ;;
              text <- lift (call_strip output) ;;
              Ret (Some text))%prog
           else
             Raise (Exception (lit "Unexpected response status: "
                                 ++ str_of_int (status response)))
       end).

End GizAI.

(** [{"type": msg.role.value, "content": msg.content}] *)
Definition message_dict (msg : Message.t) : exc + dict :=
  match Message.role msg with
  | Some r =>
      inr [ (lit "type", VStr (value r));
            (lit "content",
             match Message.content msg with
             | Some c => VStr c
             | None => VNone
             end) ]
  | None => inl (no_attribute VNone (lit "value"))
  end.

(** The list comprehension over [request.messages], left to right. *)
Fixpoint translate (msgs : list Message.t) : exc + list dict :=
  match msgs with
  | [] => inr []
  | msg :: rest =>
      match message_dict msg with
      | inl e => inl e
      | inr d =>
          match translate rest with
          | inl e => inl e
          | inr ds => inr (d :: ds)
          end
      end
  end.

(** The response envelope built around the provider's text: the
    [ChatResponse(...)] expression of [chat_completions]. *)
Definition compose (response : str) (model : str) : exc + ChatResponse.t :=
  match ResponseMessage.new (Some response) (Member ASSISTANT) with
  | inl e => inl e
  | inr message =>
      inr (ChatResponse.mk
             (Some (lit "chatcmpl-dc4f6c13-7739-4acc-8940-ec822ccb24dc"))
             (Some [ Choices.mk (Some (lit "stop")) (Some 0) (Some message) ])
             (Some 1735359843)
             (Some model)
             (Some (lit "chat.completion"))
             None
             None
             (Some (Usage.mk (Some 0) (Some 0) (Some 0) None None))
             None)
  end.

Definition chat_completions (request : ChatRequest.t) : prog ChatResponse.t :=
  try_except
    (messages <- lift (translate (ChatRequest.messages request)) ;;
     response <- GizAI.create_async_generator (ChatRequest.model request) messages None ;;
     match response with
     | None =>
         Print (Line (lit "No response generated"))
           (Raise (HTTPException 500 (lit "No response generated")))
     | Some text => lift (compose text (ChatRequest.model request))
     end)%prog
    (fun e =>
       Print (Line (lit "Error: " ++ str_exc e))
         (Raise (HTTPException 500 (str_exc e)))).

(** The endpoint on a validated request: what FastAPI answers. *)
Definition endpoint (srv : provider) (request : ChatRequest.t) : http_response ChatResponse.t :=
  respond ChatResponse.dump (result srv (chat_completions request)).

(** [POST /v1/chat/completions] on an inbound body that FastAPI has read
    and parsed, whose [model] and [temperature] are of their types: the
    events of the call and the answer.  (A body that cannot be read or
    parsed is answered before this point, with 400 or 422.) *)
Definition post_chat_completions (srv : provider) (model : str)
    (messages : list pyval) (temperature : option float)
    : list event * http_response ChatResponse.t :=
  match ChatRequest.validate model messages temperature with
  | None => ([], reject (ChatRequest.refused_inputs messages))
  | Some request =>
      let (t, r) := run srv (chat_completions request) in
      (t, respond ChatResponse.dump r)
  end.

End Main.

(** ** main2.py: the minimal adapter *)

Module Main2.

Inductive MessageType : Type := HUMAN | ASSISTANT | SYSTEM.

(** [m.value] *)
Definition value (m : MessageType) : str :=
  match m with
  | HUMAN => lit "human"
  | ASSISTANT => lit "assistant"
  | SYSTEM => lit "system"
  end.

(** [MessageType(s)]: the member whose value is [s]. *)
Definition of_value (s : str) : option MessageType :=
  if str_eqb s (lit "human") then Some HUMAN
  else if str_eqb s (lit "assistant") then Some ASSISTANT
  else if str_eqb s (lit "system") then Some SYSTEM
  else None.

(** pydantic's validation of a field typed [MessageType], on a value of the
    inbound JSON body. *)
Definition validate_MessageType (v : pyval) : option MessageType :=
  match v with
  | VStr s => of_value s
  | _ => None
  end.

Module Message.

Record t : Type := mk {
  type : MessageType;
  content : str
}.

(** A message of the inbound JSON body turned into a [Message]: both
    fields are required. *)
Definition validate (v : pyval) : option t :=
  match v with
  | VDict d =>
      match dict_get d (lit "type"), required_str d (lit "content") with
      | Some ty, Some c =>
          match validate_MessageType ty with
          | Some m => Some (mk m c)
          | None => None
          end
      | _, _ => None
      end
  | _ => None
  end.

(** The [type] field read from an object. *)
Definition read_type (d : dict) (k : str) : option MessageType :=
  match dict_get d k with
  | Some ty => validate_MessageType ty
  | None => None
  end.

(** The inputs that the report of a refused message repeats, field by
    field; none for a message that [validate] accepts. *)
Definition refused_inputs (v : pyval) : list pyval :=
  match v with
  | VDict d =>
      refused_field read_type d (lit "type")
        ++ refused_field required_str d (lit "content")
  | _ => [v]
  end.

End Message.

Module ChatRequest.

Record t : Type := mk {
  model : str;
  messages : list Message.t;
  mode : str;
  noStream : bool
}.

Definition default_mode : str := lit "plan".
Definition default_noStream : bool := true.

(** The inbound body turned into a [ChatRequest]: its messages are
    validated one by one; the other fields are taken as already of their
    types, an absent [mode] or [noStream] as its default. *)
Definition validate (model : str) (messages : list pyval)
    (mode : option str) (noStream : option bool) : option t :=
  match validate_all Message.validate messages with
  | Some ms =>
      Some (mk model ms
              (match mode with Some m => m | None => default_mode end)
              (match noStream with Some b => b | None => default_noStream end))
  | None => None
  end.

(** The inputs that the report of a refused body repeats: those of all its
    messages, pydantic collecting every error. *)
Definition refused_inputs (messages : list pyval) : list pyval :=
  flat_map Message.refused_inputs messages.

End ChatRequest.

Module ChatResponse.
Record t : Type := mk {
  output : str
}.

(** The response as JSON, as [response_model=ChatResponse] dumps it. *)
Definition dump (r : t) : pyval := VDict [ (lit "output", VStr (output r)) ].
End ChatResponse.

(** The provider implementation; a generator is read as in [Main.GizAI]. *)
Module GizAI.

Definition api_endpoint : str :=
  lit "https://app.giz.ai/api/data/users/inferenceServer.infer".
Definition working : bool := true.
Definition supports_stream : bool := false.
Definition supports_system_message : bool := true.
Definition supports_message_history : bool := true.

Definition headers : list (str * str) :=
  [ (lit "Accept", lit "application/json, text/plain, */*");
    (lit "Accept-Language", lit "en-US,en;q=0.9");
    (lit "Cache-Control", lit "no-cache");
    (lit "Connection", lit "keep-alive");
    (lit "Content-Type", lit "application/json");
    (lit "DNT", lit "1");
    (lit "Origin", lit "https://app.giz.ai");
    (lit "Pragma", lit "no-cache");
    (lit "Sec-Fetch-Dest", lit "empty");
    (lit "Sec-Fetch-Mode", lit "cors");
    (lit "Sec-Fetch-Site", lit "same-origin");
    (lit "User-Agent", lit "Mozilla/5.0 (X11; Linux x86_64) AppleWebKit/537.36 (KHTML, like Gecko) Chrome/130.0.0.0 Safari/537.36");
    (lit "sec-ch-ua",
     dquote ++ lit "Not?A_Brand" ++ dquote ++ lit ";v=" ++ dquote ++ lit "99"
       ++ dquote ++ lit ", " ++ dquote ++ lit "Chromium" ++ dquote ++ lit ";v="
       ++ dquote ++ lit "130" ++ dquote);
    (lit "sec-ch-ua-mobile", lit "?0");
    (lit "sec-ch-ua-platform", dquote ++ lit "Linux" ++ dquote) ].

Definition data (model : str) (messages : list dict) : pyval :=
  VDict
    [ (lit "model", VStr (lit "chat"));
      (lit "baseModel", VStr model);
      (lit "input",
       VDict [ (lit "messages", VList (map VDict messages));
               (lit "mode", VStr (lit "chat")) ]);
      (lit "noStream", VBool true) ].

Definition create_async_generator (model : str) (messages : list dict)
    (proxy : option str) : prog (option str) :=
  Print (Line (lit "Request to API endpoint:"))
    (Print (JsonDumps (data model messages) 2)
       (Post (mkCall api_endpoint headers (data model messages) proxy)
          (fun r =>
             match r with
             | inl e => Raise e
             | inr response =>
                 if status response =? 201 then
                   (result <- lift (json response) ;;
                    output <- lift (subscript result (lit "output")) ;;
                    text <- lift (call_strip output) ;;
                    Ret (Some text))%prog
                 else
                   Raise (Exception (lit "Unexpected response status: "
                                       ++ str_of_int (status response)))
             end))).

End GizAI.

(** [{"type": msg.type, "content": msg.content}]; the member of the [str]
    enumeration is the string of its value once in JSON. *)
Definition message_dict (msg : Message.t) : dict :=
  [ (lit "type", VStr (value (Message.type msg)));
    (lit "content", VStr (Message.content msg)) ].

(** The list comprehension over [request.messages]. *)
Definition translate (msgs : list Message.t) : list dict :=
  map message_dict msgs.

Definition chat_completions (request : ChatRequest.t) : prog ChatResponse.t :=
  try_except
    (response <- GizAI.create_async_generator (ChatRequest.model request)
                   (translate (ChatRequest.messages request)) None ;;
     match response with
     | None => Raise (HTTPException 500 (lit "No response generated"))
     | Some text => Ret (ChatResponse.mk text)
     end)%prog
    (fun e => Raise (HTTPException 500 (str_exc e))).

(** The endpoint on a validated request: what FastAPI answers. *)
Definition endpoint (srv : provider) (request : ChatRequest.t) : http_response ChatResponse.t :=
  respond ChatResponse.dump (result srv (chat_completions request)).

(** [POST /v1/chat/completions] on an inbound body that FastAPI has read
    and parsed, whose [model], [mode] and [noStream] are of their types:
    the events of the call and the answer.  (A body that cannot be read or
    parsed is answered before this point, with 400 or 422.) *)
Definition post_chat_completions (srv : provider) (model : str)
    (messages : list pyval) (mode : option str) (noStream : option bool)
    : list event * http_response ChatResponse.t :=
  match ChatRequest.validate model messages mode noStream with
  | None => ([], reject (ChatRequest.refused_inputs messages))
  | Some request =>
      let (t, r) := run srv (chat_completions request) in
      (t, respond ChatResponse.dump r)
  end.

End Main2.

(** ** Reading an outbound call *)

(** A top-level field of the JSON body of a call. *)
Definition body_field (c : Call) (k : str) : option pyval :=
  match json_data c with
  | VDict d => dict_get d k
  | _ => None
  end.

(** The [input.messages] list of the JSON body of a call. *)
Definition input_messages (c : Call) : option (list pyval) :=
  match body_field c (lit "input") with
  | Some (VDict i) =>
      match dict_get i (lit "messages") with
      | Some (VList l) => Some l
      | _ => None
      end
  | _ => None
  end.

(** The calls made while serving a request, without their answers. *)
Definition sent (t : list event) : list Call := map fst (posts t).

(** [t] is [X] with the whitespace at both ends removed, and not more. *)
Definition no_leading_space (t : str) : Prop :=
  match t with
  | [] => True
  | c :: _ => isspace c = false
  end.

Definition trimmed (X t : str) : Prop :=
  exists l r,
    X = l ++ t ++ r
    /\ Forall (fun c => isspace c = true) l
    /\ Forall (fun c => isspace c = true) r
    /\ no_leading_space t
    /\ no_leading_space (rev t).

(** What the provider client makes of the answer to its call: the code
    after [session.post], the same in both adapters. *)
Definition client_outcome (a : exc + Response) : exc + option str :=
  match a with
  | inl e => inl e
  | inr r =>
      if status r =? 201 then
        match json r with
        | inl e => inl e
        | inr v =>
            match subscript v (lit "output") with
            | inl e => inl e
            | inr o =>
                match call_strip o with
                | inl e => inl e
                | inr text => inr (Some text)
                end
            end
        end
      else
        inl (Exception (lit "Unexpected response status: " ++ str_of_int (status r)))
  end.

(** The body of an answer holds no [output] field: [response.json()]
    raised, or the parsed value is an object without the key, or no object
    at all. *)
Definition lacks_output (b : exc + pyval) : bool :=
  match b with
  | inl _ => true
  | inr (VDict d) =>
      match dict_get d (lit "output") with
      | Some _ => false
      | None => true
      end
  | inr _ => true
  end.

(** ** Sample inputs *)

(** A provider that answers every call with the given status and body. *)
Definition answering (st : Z) (body : exc + pyval) : provider :=
  fun _ => inr (mkResponse st body).

(** The JSON body [{"output": X}]. *)
Definition output_body (X : str) : exc + pyval :=
  inr (VDict [ (lit "output", VStr X) ]).

(** An inbound message [{"role": role, "content": content}]. *)
Definition role_content (role content : string) : pyval :=
  VDict [ (lit "role", VStr (lit role)); (lit "content", VStr (lit content)) ].

(** An inbound message [{"type": type, "content": content}]. *)
Definition type_content (type content : string) : pyval :=
  VDict [ (lit "type", VStr (lit type)); (lit "content", VStr (lit content)) ].

Definition sample_request : Main.ChatRequest.t :=
  Main.ChatRequest.mk (lit "qwen-coder-32b")
    [ Main.Message.mk (Some (lit "be terse")) (Some Main.SYSTEM) None None;
      Main.Message.mk (Some (lit "hi")) (Some Main.HUMAN) None None ]
    None.

Definition sample_request2 : Main2.ChatRequest.t :=
  Main2.ChatRequest.mk (lit "qwen-coder-32b")
    [ Main2.Message.mk Main2.SYSTEM (lit "be terse");
      Main2.Message.mk Main2.HUMAN (lit "hi") ]
    (lit "plan") true.

(** The calls the two handlers make for the sample requests. *)
Definition sample_call : Call :=
  mkCall Main.GizAI.api_endpoint Main.GizAI.headers
    (Main.GizAI.data (lit "qwen-coder-32b")
       [ [ (lit "type", VStr (lit "system")); (lit "content", VStr (lit "be terse")) ];
         [ (lit "type", VStr (lit "human")); (lit "content", VStr (lit "hi")) ] ])
    None.

Definition sample_call2 : Call :=
  mkCall Main2.GizAI.api_endpoint Main2.GizAI.headers
    (Main2.GizAI.data (lit "qwen-coder-32b")
       [ [ (lit "type", VStr (lit "system")); (lit "content", VStr (lit "be terse")) ];
         [ (lit "type", VStr (lit "human")); (lit "content", VStr (lit "hi")) ] ])
    None.

(** A provider text with whitespace at both ends: a space and a line feed
    before ["hi"], a tab and a no-break space after. *)
Definition sample_text : str := [32; 10]%N ++ lit "hi" ++ [9; 160]%N.

(** What a trace wrote on standard output, in order. *)
Fixpoint printed (t : list event) : list output :=
  match t with
  | [] => []
  | Printed o :: t' => o :: printed t'
  | Posted _ _ :: t' => printed t'
  end.


(** A request of main.py whose only message has no role. *)
Definition roleless_request : Main.ChatRequest.t :=
  Main.ChatRequest.mk (lit "qwen-coder-32b")
    [ Main.Message.mk (Some (lit "hi")) None None None ]
    None.

(** The provider label main.py sends for an accepted inbound role string:
    the two aliases renamed, the values of the enumeration as they are. *)
Definition Main_outbound_type (s : str) : str :=
  if str_eqb s (lit "user") then lit "human"
  else if str_eqb s (lit "assistant") then lit "ai"
  else s.

(** [out] is the outbound entry of main.py for the inbound message [inb]:
    an object with a string role and a content that is a string, null or
    absent gives the two keys [type] and [content], in that order. *)
Definition Main_entry (inb out : pyval) : Prop :=
  exists (d : dict) (s : str) (content : option str),
    inb = VDict d
    /\ dict_get d (lit "role") = Some (VStr s)
    /\ optional_str d (lit "content") = Some content
    /\ out = VDict [ (lit "type", VStr (Main_outbound_type s));
                     (lit "content",
                      match content with Some c => VStr c | None => VNone end) ]
    /\ In (Main_outbound_type s) [lit "human"; lit "ai"; lit "system"].

(** [out] is the outbound entry of main2.py for the inbound message [inb]:
    the [type] and [content] strings of the object, and nothing else. *)
Definition Main2_entry (inb out : pyval) : Prop :=
  exists (d : dict) (s c : str),
    inb = VDict d
    /\ dict_get d (lit "type") = Some (VStr s)
    /\ dict_get d (lit "content") = Some (VStr c)
    /\ out = VDict [ (lit "type", VStr s); (lit "content", VStr c) ]
    /\ In s [lit "human"; lit "assistant"; lit "system"].

(** A provider text that begins with a lone surrogate, as [json.loads]
    reads the escape of U+D800 followed by ["hi"]. *)
Definition surrogate_text : str := [55296%N] ++ lit "hi".

(** * Properties *)

(** ** Strings *)

Lemma str_eqb_eq (a b : str) : str_eqb a b = true <-> a = b.
Proof.
  revert b; induction a as [|x a IH]; intros [|y b]; simpl; split;
    try congruence; try reflexivity.
  - intros H. apply andb_true_iff in H as [Hx Hr].
    apply N.eqb_eq in Hx. apply IH in Hr. congruence.
  - intros H. injection H as -> ->. rewrite N.eqb_refl. simpl. now apply IH.
Qed.

Lemma str_eqb_refl (a : str) : str_eqb a a = true.
Proof. now apply str_eqb_eq. Qed.

Lemma str_eqb_neq (a b : str) : a <> b -> str_eqb a b = false.
Proof.
  intros H. destruct (str_eqb a b) eqn:E; [|reflexivity].
  apply str_eqb_eq in E. contradiction.
Qed.

Lemma lstrip_split (s : str) :
  exists l, s = l ++ lstrip s /\ Forall (fun c => isspace c = true) l.
Proof.
  induction s as [|c s [l [Hs Hl]]]; simpl.
  - exists []. split; [reflexivity | constructor].
  - destruct (isspace c) eqn:E.
    + exists (c :: l). split; [simpl; congruence | now constructor].
    + exists []. split; [reflexivity | constructor].
Qed.

Lemma lstrip_no_leading_space (s : str) : no_leading_space (lstrip s).
Proof.
  induction s as [|c s IH]; simpl; [exact I|].
  destruct (isspace c) eqn:E; [exact IH | exact E].
Qed.

Lemma no_leading_space_prefix (t r : str) :
  no_leading_space (t ++ r) -> no_leading_space t.
Proof. destruct t; simpl; auto. Qed.

(** [strip] removes the whitespace at both ends and nothing else. *)
Lemma strip_trimmed (X : str) : trimmed X (strip X).
Proof.
  unfold trimmed, strip, rstrip.
  destruct (lstrip_split X) as [l [HX Hl]].
  destruct (lstrip_split (rev (lstrip X))) as [r [Hr Hrs]].
  exists l, (rev r). repeat split.
  - rewrite <- rev_app_distr, <- Hr, rev_involutive. exact HX.
  - exact Hl.
  - apply Forall_rev. exact Hrs.
  - apply no_leading_space_prefix with (r := rev r).
    rewrite <- rev_app_distr, <- Hr, rev_involutive.
    apply lstrip_no_leading_space.
  - rewrite rev_involutive. apply lstrip_no_leading_space.
Qed.

(** ** Running computations *)

Lemma run_bind {A B : Type} (srv : provider) (p : prog A) (f : A -> prog B) :
  run srv (bind p f) =
  match run srv p with
  | (t, inl e) => (t, inl e)
  | (t, inr a) => let (t', r) := run srv (f a) in (t ++ t', r)
  end.
Proof.
  induction p as [a|e|o k IH|c k IH]; simpl.
  - destruct (run srv (f a)); reflexivity.
  - reflexivity.
  - rewrite IH. destruct (run srv k) as [t [e|a]]; [reflexivity|].
    destruct (run srv (f a)); reflexivity.
  - rewrite IH. destruct (run srv (k (srv c))) as [t [e|a]]; [reflexivity|].
    destruct (run srv (f a)); reflexivity.
Qed.

Lemma run_try_except {A : Type} (srv : provider) (p : prog A) (h : exc -> prog A) :
  run srv (try_except p h) =
  match run srv p with
  | (t, inr a) => (t, inr a)
  | (t, inl e) => let (t', r) := run srv (h e) in (t ++ t', r)
  end.
Proof.
  induction p as [a|e|o k IH|c k IH]; simpl.
  - reflexivity.
  - destruct (run srv (h e)); reflexivity.
  - rewrite IH. destruct (run srv k) as [t [e|a]]; [|reflexivity].
    destruct (run srv (h e)); reflexivity.
  - rewrite IH. destruct (run srv (k (srv c))) as [t [e|a]]; [|reflexivity].
    destruct (run srv (h e)); reflexivity.
Qed.

Lemma run_lift {A : Type} (srv : provider) (r : exc + A) : run srv (lift r) = ([], r).
Proof. destruct r; reflexivity. Qed.

(** The code of the client after its call computes [client_outcome]. *)
Lemma run_after_post (srv : provider) (r : Response) :
  run srv
    (if status r =? 201 then
       (result <- lift (json r) ;;
        output <- lift (subscript result (lit "output")) ;;
        text <- lift (call_strip output) ;;
        Ret (Some text))%prog
     else
       Raise (Exception (lit "Unexpected response status: " ++ str_of_int (status r))))
  = ([], client_outcome (inr r)).
Proof.
  unfold client_outcome.
  destruct (status r =? 201); [|reflexivity].
  destruct (json r) as [e|v]; [reflexivity|]. cbn [lift bind].
  destruct (subscript v (lit "output")) as [e|o]; [reflexivity|]. cbn [lift bind].
  destruct (call_strip o) as [e|text]; reflexivity.
Qed.

Lemma Main_client_run (srv : provider) (model : str) (messages : list dict)
    (proxy : option str) :
  let c := mkCall Main.GizAI.api_endpoint Main.GizAI.headers
             (Main.GizAI.data model messages) proxy in
  run srv (Main.GizAI.create_async_generator model messages proxy)
  = ([Posted c (srv c)], client_outcome (srv c)).
Proof.
  intros c. unfold Main.GizAI.create_async_generator. fold c.
  cbn [run]. destruct (srv c) as [e|r]; [reflexivity|].
  rewrite run_after_post. reflexivity.
Qed.

Lemma Main2_client_run (srv : provider) (model : str) (messages : list dict)
    (proxy : option str) :
  let c := mkCall Main2.GizAI.api_endpoint Main2.GizAI.headers
             (Main2.GizAI.data model messages) proxy in
  run srv (Main2.GizAI.create_async_generator model messages proxy)
  = ([Printed (Line (lit "Request to API endpoint:"));
      Printed (JsonDumps (Main2.GizAI.data model messages) 2);
      Posted c (srv c)],
     client_outcome (srv c)).
Proof.
  intros c. unfold Main2.GizAI.create_async_generator. fold c.
  cbn [run]. destruct (srv c) as [e|r]; [reflexivity|].
  rewrite run_after_post. reflexivity.
Qed.

(** ** The handler of main.py *)

(** The composer never fails: the role it passes is a member, which the
    validator of the response message maps to itself. *)
Lemma Main_compose_ok (text model : str) :
  Main.compose text model =
  inr (Main.ChatResponse.mk
         (Some (lit "chatcmpl-dc4f6c13-7739-4acc-8940-ec822ccb24dc"))
         (Some [ Main.Choices.mk (Some (lit "stop")) (Some 0)
                   (Some (Main.ResponseMessage.mk (Some text) Main.ASSISTANT None None)) ])
         (Some 1735359843)
         (Some model)
         (Some (lit "chat.completion"))
         None None
         (Some (Main.Usage.mk (Some 0) (Some 0) (Some 0) None None))
         None).
Proof. reflexivity. Qed.

(** A message without a role stops the handler before any call. *)
Lemma Main_run_untranslated (srv : provider) (request : Main.ChatRequest.t) (e : exc) :
  Main.translate (Main.ChatRequest.messages request) = inl e ->
  run srv (Main.chat_completions request)
  = ([Printed (Line (lit "Error: " ++ str_exc e))],
     inl (HTTPException 500 (str_exc e))).
Proof.
  intros H. unfold Main.chat_completions.
  rewrite run_try_except, run_bind, run_lift, H. reflexivity.
Qed.

(** Otherwise it makes one call, and ends as the client's outcome says. *)
Lemma Main_run_translated (srv : provider) (request : Main.ChatRequest.t)
    (ds : list dict) :
  Main.translate (Main.ChatRequest.messages request) = inr ds ->
  let c := mkCall Main.GizAI.api_endpoint Main.GizAI.headers
             (Main.GizAI.data (Main.ChatRequest.model request) ds) None in
  run srv (Main.chat_completions request)
  = match client_outcome (srv c) with
    | inl e =>
        ([Posted c (srv c); Printed (Line (lit "Error: " ++ str_exc e))],
         inl (HTTPException 500 (str_exc e)))
    | inr None =>
        ([Posted c (srv c); Printed (Line (lit "No response generated"));
          Printed (Line (lit "Error: "
                           ++ str_exc (HTTPException 500 (lit "No response generated"))))],
         inl (HTTPException 500
                (str_exc (HTTPException 500 (lit "No response generated")))))
    | inr (Some text) =>
        ([Posted c (srv c)],
         Main.compose text (Main.ChatRequest.model request))
    end.
Proof.
  intros H c. unfold Main.chat_completions.
  rewrite run_try_except, run_bind, run_lift, H.
  rewrite run_bind, Main_client_run. fold c.
  destruct (client_outcome (srv c)) as [e|[text|]]; reflexivity.
Qed.

(** The one failure of the translation is the missing role. *)
Lemma Main_translate_inl (msgs : list Main.Message.t) (e : exc) :
  Main.translate msgs = inl e ->
  e = no_attribute VNone (lit "value")
  /\ exists msg, In msg msgs /\ Main.Message.role msg = None.
Proof.
  induction msgs as [|msg rest IH]; simpl; [discriminate|].
  unfold Main.message_dict.
  destruct (Main.Message.role msg) as [r|] eqn:Hr.
  - destruct (Main.translate rest) as [e'|ds]; [|discriminate].
    intros H. injection H as <-. destruct (IH eq_refl) as [He [m [Hin Hm]]].
    split; [exact He|]. exists m. split; [now right | exact Hm].
  - intros H. injection H as <-. split; [reflexivity|].
    exists msg. split; [now left | exact Hr].
Qed.

Lemma Main_translate_inr (msgs : list Main.Message.t) (ds : list dict) :
  Main.translate msgs = inr ds <->
  Forall2 (fun msg d => Main.message_dict msg = inr d) msgs ds.
Proof.
  revert ds. induction msgs as [|msg rest IH]; intros ds; simpl.
  - split.
    + intros H. injection H as <-. constructor.
    + intros H. inversion H. reflexivity.
  - split.
    + destruct (Main.message_dict msg) as [e|d] eqn:Hd; [discriminate|].
      destruct (Main.translate rest) as [e|ds'] eqn:Hr; [discriminate|].
      intros H. injection H as <-. constructor; [exact Hd|]. now apply IH.
    + intros H. inversion H as [|? d ? ds' Hd Hrest]; subst.
      rewrite Hd. apply IH in Hrest. rewrite Hrest. reflexivity.
Qed.

(** The translation succeeds when every message has a role. *)
Lemma Main_translate_total (msgs : list Main.Message.t) :
  Forall (fun msg => Main.Message.role msg <> None) msgs ->
  exists ds, Main.translate msgs = inr ds.
Proof.
  intros H. destruct (Main.translate msgs) as [e|ds] eqn:E; [|now exists ds].
  apply Main_translate_inl in E as [_ [msg [Hin Hnone]]].
  rewrite Forall_forall in H. now apply H in Hin.
Qed.

(** The calls of the handler: none, or the one built from the translated
    messages. *)
Lemma Main_calls (srv : provider) (request : Main.ChatRequest.t) :
  match Main.translate (Main.ChatRequest.messages request) with
  | inl _ => calls srv (Main.chat_completions request) = []
  | inr ds =>
      let c := mkCall Main.GizAI.api_endpoint Main.GizAI.headers
                 (Main.GizAI.data (Main.ChatRequest.model request) ds) None in
      calls srv (Main.chat_completions request) = [(c, srv c)]
  end.
Proof.
  unfold calls.
  destruct (Main.translate (Main.ChatRequest.messages request)) as [e|ds] eqn:E.
  - rewrite (Main_run_untranslated srv request e E). reflexivity.
  - pose proof (Main_run_translated srv request ds E) as R.
    cbv zeta in R |- *. rewrite R.
    match goal with |- context [client_outcome ?a] => destruct (client_outcome a) as [e|[text|]] end;
      reflexivity.
Qed.

Lemma Forall2_In_l {A B : Type} (R : A -> B -> Prop) (l : list A) (l' : list B) (x : A) :
  Forall2 R l l' -> In x l -> exists y, In y l' /\ R x y.
Proof.
  induction 1 as [|a b l l' Hab _ IH]; simpl; [intros []|].
  intros [<-|Hin].
  - exists b. split; [now left | exact Hab].
  - destruct (IH Hin) as [y [Hy HR]]. exists y. split; [now right | exact HR].
Qed.

(** A message without a role: the handler of main.py makes no call and the
    endpoint answers 500 with the text of the attribute error. *)
Lemma Main_message_without_role (srv : provider) (request : Main.ChatRequest.t)
    (msg : Main.Message.t) :
  In msg (Main.ChatRequest.messages request) ->
  Main.Message.role msg = None ->
  calls srv (Main.chat_completions request) = []
  /\ Main.endpoint srv request
     = Detail 500 (lit "'NoneType' object has no attribute 'value'").
Proof.
  intros Hin Hrole.
  destruct (Main.translate (Main.ChatRequest.messages request)) as [e|ds] eqn:E.
  - destruct (Main_translate_inl _ _ E) as [-> _].
    unfold calls, Main.endpoint, result.
    rewrite (Main_run_untranslated srv request _ E). split; reflexivity.
  - apply Main_translate_inr in E.
    destruct (Forall2_In_l _ _ _ _ E Hin) as [d [_ Hd]].
    unfold Main.message_dict in Hd. rewrite Hrole in Hd. discriminate.
Qed.

(** ** The handler of main2.py *)

(** It always makes one call, and ends as the client's outcome says. *)
Lemma Main2_run (srv : provider) (request : Main2.ChatRequest.t) :
  let body := Main2.GizAI.data (Main2.ChatRequest.model request)
                (Main2.translate (Main2.ChatRequest.messages request)) in
  let c := mkCall Main2.GizAI.api_endpoint Main2.GizAI.headers body None in
  run srv (Main2.chat_completions request)
  = ([Printed (Line (lit "Request to API endpoint:"));
      Printed (JsonDumps body 2);
      Posted c (srv c)],
     match client_outcome (srv c) with
     | inl e => inl (HTTPException 500 (str_exc e))
     | inr None =>
         inl (HTTPException 500
                (str_exc (HTTPException 500 (lit "No response generated"))))
     | inr (Some text) => inr (Main2.ChatResponse.mk text)
     end).
Proof.
  intros body c. unfold Main2.chat_completions.
  rewrite run_try_except, run_bind, Main2_client_run. fold body c.
  destruct (client_outcome (srv c)) as [e|[text|]]; reflexivity.
Qed.

Lemma Main2_calls (srv : provider) (request : Main2.ChatRequest.t) :
  let c := mkCall Main2.GizAI.api_endpoint Main2.GizAI.headers
             (Main2.GizAI.data (Main2.ChatRequest.model request)
                (Main2.translate (Main2.ChatRequest.messages request))) None in
  calls srv (Main2.chat_completions request) = [(c, srv c)].
Proof.
  intros c. unfold calls.
  pose proof (Main2_run srv request) as R. cbv zeta in R. rewrite R. reflexivity.
Qed.

(** ** The outcome of the client, case by case *)

Lemma client_outcome_success (r : Response) (d : dict) (X : str) :
  status r = 201 ->
  json r = inr (VDict d) ->
  dict_get d (lit "output") = Some (VStr X) ->
  client_outcome (inr r) = inr (Some (strip X)).
Proof.
  intros Hs Hj Ho. unfold client_outcome. rewrite Hs, Hj. cbn [Z.eqb Pos.eqb subscript].
  rewrite Ho. reflexivity.
Qed.

Lemma client_outcome_status (r : Response) :
  status r <> 201 ->
  client_outcome (inr r)
  = inl (Exception (lit "Unexpected response status: " ++ str_of_int (status r))).
Proof.
  intros Hs. unfold client_outcome.
  destruct (status r =? 201) eqn:E; [|reflexivity].
  apply Z.eqb_eq in E. contradiction.
Qed.

(** A call of the handler of main.py, with what it was answered. *)
Lemma Main_calls_In (srv : provider) (request : Main.ChatRequest.t)
    (c : Call) (a : exc + Response) :
  In (c, a) (calls srv (Main.chat_completions request)) ->
  exists ds,
    Main.translate (Main.ChatRequest.messages request) = inr ds
    /\ c = mkCall Main.GizAI.api_endpoint Main.GizAI.headers
             (Main.GizAI.data (Main.ChatRequest.model request) ds) None
    /\ a = srv c
    /\ calls srv (Main.chat_completions request) = [(c, a)].
Proof.
  intros Hin. pose proof (Main_calls srv request) as H.
  destruct (Main.translate (Main.ChatRequest.messages request)) as [e|ds].
  - rewrite H in Hin. destruct Hin.
  - cbv zeta in H. rewrite H in Hin. destruct Hin as [Heq|[]].
    injection Heq as <- <-. exists ds. repeat split; assumption.
Qed.

Lemma Main2_calls_In (srv : provider) (request : Main2.ChatRequest.t)
    (c : Call) (a : exc + Response) :
  In (c, a) (calls srv (Main2.chat_completions request)) ->
  c = mkCall Main2.GizAI.api_endpoint Main2.GizAI.headers
        (Main2.GizAI.data (Main2.ChatRequest.model request)
           (Main2.translate (Main2.ChatRequest.messages request))) None
  /\ a = srv c.
Proof.
  intros Hin. pose proof (Main2_calls srv request) as H. cbv zeta in H.
  rewrite H in Hin. destruct Hin as [Heq|[]]. injection Heq as <- <-. now split.
Qed.

Lemma Main_client_calls (srv : provider) (model : str) (messages : list dict)
    (proxy : option str) (c : Call) (a : exc + Response) :
  In (c, a) (calls srv (Main.GizAI.create_async_generator model messages proxy)) ->
  a = srv c
  /\ result srv (Main.GizAI.create_async_generator model messages proxy)
     = client_outcome a.
Proof.
  unfold calls, result.
  pose proof (Main_client_run srv model messages proxy) as R. cbv zeta in R.
  rewrite R. cbn [fst snd posts]. intros [Heq|[]]. injection Heq as <- <-. now split.
Qed.

Lemma Main2_client_calls (srv : provider) (model : str) (messages : list dict)
    (proxy : option str) (c : Call) (a : exc + Response) :
  In (c, a) (calls srv (Main2.GizAI.create_async_generator model messages proxy)) ->
  a = srv c
  /\ result srv (Main2.GizAI.create_async_generator model messages proxy)
     = client_outcome a.
Proof.
  unfold calls, result.
  pose proof (Main2_client_run srv model messages proxy) as R. cbv zeta in R.
  rewrite R. cbn [fst snd posts]. intros [Heq|[]]. injection Heq as <- <-. now split.
Qed.

(** ** Rendering the answer *)

Lemma encodable_app (a b : str) : encodable (a ++ b) = encodable a && encodable b.
Proof. apply forallb_app. Qed.

Lemma encodable_strip (X : str) : encodable X = true -> encodable (strip X) = true.
Proof.
  destruct (strip_trimmed X) as [l [r [HX _]]]. intros H.
  rewrite HX, !encodable_app in H.
  apply andb_true_iff in H as [_ H]. now apply andb_true_iff in H as [H _].
Qed.

(** The envelope of main.py can be rendered exactly when the text and the
    model it repeats can be encoded. *)
Lemma Main_respond_compose (text model : str) :
  exists body,
    Main.compose text model = inr body
    /\ respond Main.ChatResponse.dump (Main.compose text model)
       = (if encodable text && encodable model then Json 200 body else ServerError)
    /\ Main.ChatResponse.choices body
       = Some [ Main.Choices.mk (Some (lit "stop")) (Some 0)
                  (Some (Main.ResponseMessage.mk (Some text) Main.ASSISTANT None None)) ].
Proof.
  eexists. split; [apply Main_compose_ok|]. split; [|reflexivity].
  rewrite Main_compose_ok. cbn [respond].
  match goal with |- (if ?b then _ else _) = _ =>
    replace b with (encodable text && encodable model) end; [reflexivity|].
  destruct (encodable text) eqn:Et; destruct (encodable model) eqn:Em;
    cbn; rewrite ?Et, ?Em; reflexivity.
Qed.

(** The body of main2.py can be rendered exactly when its text can be
    encoded. *)
Lemma Main2_respond_text (text : str) :
  respond Main2.ChatResponse.dump (inr (Main2.ChatResponse.mk text))
  = if encodable text then Json 200 (Main2.ChatResponse.mk text) else ServerError.
Proof.
  cbn [respond]. 
  replace (renderable (Main2.ChatResponse.dump (Main2.ChatResponse.mk text)))
    with (encodable text); [reflexivity|].
  cbn. now rewrite !andb_true_r.
Qed.

(** What the endpoint of main.py answers, from the outcome of its call. *)
Lemma Main_endpoint_of_call (srv : provider) (request : Main.ChatRequest.t)
    (c : Call) (a : exc + Response) :
  In (c, a) (calls srv (Main.chat_completions request)) ->
  Main.endpoint srv request =
  match client_outcome a with
  | inl e => Detail 500 (str_exc e)
  | inr None =>
      Detail 500 (str_exc (HTTPException 500 (lit "No response generated")))
  | inr (Some text) =>
      respond Main.ChatResponse.dump
        (Main.compose text (Main.ChatRequest.model request))
  end.
Proof.
  intros Hin. apply Main_calls_In in Hin as [ds [Ht [Hc [Ha _]]]].
  unfold Main.endpoint, result.
  pose proof (Main_run_translated srv request ds Ht) as R. cbv zeta in R.
  rewrite R, <- Hc, <- Ha.
  destruct (client_outcome a) as [e|[text|]]; reflexivity.
Qed.

Lemma Main2_endpoint_of_call (srv : provider) (request : Main2.ChatRequest.t)
    (c : Call) (a : exc + Response) :
  In (c, a) (calls srv (Main2.chat_completions request)) ->
  Main2.endpoint srv request =
  match client_outcome a with
  | inl e => Detail 500 (str_exc e)
  | inr None =>
      Detail 500 (str_exc (HTTPException 500 (lit "No response generated")))
  | inr (Some text) =>
      respond Main2.ChatResponse.dump (inr (Main2.ChatResponse.mk text))
  end.
Proof.
  intros Hin. apply Main2_calls_In in Hin as [Hc Ha].
  unfold Main2.endpoint, result.
  pose proof (Main2_run srv request) as R. cbv zeta in R.
  rewrite R, <- Hc, <- Ha.
  destruct (client_outcome a) as [e|[text|]]; reflexivity.
Qed.

(** ** The claims *)

(** C1, as stated, fails: the answer has to be rendered.  A provider that
    answers 201 with an [output] that begins with a lone surrogate gets the
    call through, and the text comes back trimmed to the handler, but the
    body cannot be encoded and both endpoints answer the server's 500. *)
Lemma C1_counterexample :
  In (sample_call, inr (mkResponse 201 (output_body surrogate_text)))
     (calls (answering 201 (output_body surrogate_text))
        (Main.chat_completions sample_request))
  /\ Main.endpoint (answering 201 (output_body surrogate_text)) sample_request
     = ServerError
  /\ In (sample_call2, inr (mkResponse 201 (output_body surrogate_text)))
       (calls (answering 201 (output_body surrogate_text))
          (Main2.chat_completions sample_request2))
  /\ Main2.endpoint (answering 201 (output_body surrogate_text)) sample_request2
     = ServerError
  /\ status_code
       (Main2.endpoint (answering 201 (output_body surrogate_text)) sample_request2)
     = 500.
Proof.
  split; [left; reflexivity|]. split; [reflexivity|].
  split; [left; reflexivity|]. split; reflexivity.
Qed.

(** C1, amended.  For every inbound request, when the outbound provider
    call returns status 201 with a JSON body whose [output] field is the
    string [X], the handler gets [X] with the whitespace at both ends
    removed, and the endpoint answers 200 with that text (the content of
    the sole choice's message in main.py, the [output] field in main2.py)
    whenever the answer can be encoded: the text holds no lone surrogate,
    nor, in main.py, the model the envelope repeats.  Otherwise the server
    answers its 500.  Against a provider that answers every call so, that
    is the answer to every request of main2.py, and to every request of
    main.py whose messages all have a role. *)
Theorem C1_success_returns_trimmed_output (srv : provider) (X : str) :
  (forall (request : Main.ChatRequest.t) (c : Call) (r : Response) (d : dict),
      In (c, inr r) (calls srv (Main.chat_completions request)) ->
      status r = 201 ->
      json r = inr (VDict d) ->
      dict_get d (lit "output") = Some (VStr X) ->
      exists body choice message,
        Main.endpoint srv request
        = (if encodable (strip X) && encodable (Main.ChatRequest.model request)
           then Json 200 body else ServerError)
        /\ Main.ChatResponse.choices body = Some [choice]
        /\ Main.Choices.message choice = Some message
        /\ Main.ResponseMessage.content message = Some (strip X))
  /\ (forall (request : Main2.ChatRequest.t) (c : Call) (r : Response) (d : dict),
      In (c, inr r) (calls srv (Main2.chat_completions request)) ->
      status r = 201 ->
      json r = inr (VDict d) ->
      dict_get d (lit "output") = Some (VStr X) ->
      exists body,
        Main2.endpoint srv request
        = (if encodable (strip X) then Json 200 body else ServerError)
        /\ Main2.ChatResponse.output body = strip X)
  /\ trimmed X (strip X)
  /\ (encodable X = true -> encodable (strip X) = true)
  /\ (forall (request : Main.ChatRequest.t),
      Forall (fun msg => Main.Message.role msg <> None)
        (Main.ChatRequest.messages request) ->
      exists body choice message,
        Main.endpoint (answering 201 (output_body X)) request
        = (if encodable (strip X) && encodable (Main.ChatRequest.model request)
           then Json 200 body else ServerError)
        /\ Main.ChatResponse.choices body = Some [choice]
        /\ Main.Choices.message choice = Some message
        /\ Main.ResponseMessage.content message = Some (strip X))
  /\ (forall (request : Main2.ChatRequest.t),
      Main2.endpoint (answering 201 (output_body X)) request
      = if encodable (strip X)
        then Json 200 (Main2.ChatResponse.mk (strip X)) else ServerError).
Proof.
  assert (H1 : forall (srv : provider) (request : Main.ChatRequest.t) (c : Call)
                      (r : Response) (d : dict),
             In (c, inr r) (calls srv (Main.chat_completions request)) ->
             status r = 201 ->
             json r = inr (VDict d) ->
             dict_get d (lit "output") = Some (VStr X) ->
             exists body choice message,
               Main.endpoint srv request
               = (if encodable (strip X) && encodable (Main.ChatRequest.model request)
                  then Json 200 body else ServerError)
               /\ Main.ChatResponse.choices body = Some [choice]
               /\ Main.Choices.message choice = Some message
               /\ Main.ResponseMessage.content message = Some (strip X)).
  { intros srv' request c r d Hin Hs Hj Ho.
    rewrite (Main_endpoint_of_call srv' request c (inr r) Hin).
    rewrite (client_outcome_success r d X Hs Hj Ho).
    destruct (Main_respond_compose (strip X) (Main.ChatRequest.model request))
      as [body [_ [-> Hc]]].
    exists body. do 2 eexists. split; [reflexivity|]. split; [exact Hc|].
    split; reflexivity. }
  assert (H2 : forall (srv : provider) (request : Main2.ChatRequest.t) (c : Call)
                      (r : Response) (d : dict),
             In (c, inr r) (calls srv (Main2.chat_completions request)) ->
             status r = 201 ->
             json r = inr (VDict d) ->
             dict_get d (lit "output") = Some (VStr X) ->
             Main2.endpoint srv request
             = if encodable (strip X)
               then Json 200 (Main2.ChatResponse.mk (strip X)) else ServerError).
  { intros srv' request c r d Hin Hs Hj Ho.
    rewrite (Main2_endpoint_of_call srv' request c (inr r) Hin).
    rewrite (client_outcome_success r d X Hs Hj Ho). apply Main2_respond_text. }
  split; [|split; [|split; [|split; [|split]]]].
  - apply H1.
  - intros request c r d Hin Hs Hj Ho. eexists. split.
    + exact (H2 srv request c r d Hin Hs Hj Ho).
    + reflexivity.
  - apply strip_trimmed.
  - apply encodable_strip.
  - intros request Hroles.
    destruct (Main_translate_total _ Hroles) as [ds Hds].
    pose proof (Main_calls (answering 201 (output_body X)) request) as Hc.
    rewrite Hds in Hc. cbv zeta in Hc.
    eapply H1 with (r := mkResponse 201 (output_body X)).
    + rewrite Hc. left. reflexivity.
    + reflexivity.
    + reflexivity.
    + reflexivity.
  - intros request.
    pose proof (Main2_calls (answering 201 (output_body X)) request) as Hc.
    cbv zeta in Hc.
    eapply H2 with (r := mkResponse 201 (output_body X)).
    + rewrite Hc. left. reflexivity.
    + reflexivity.
    + reflexivity.
    + cbn [dict_get]. rewrite str_eqb_refl. reflexivity.
Qed.

Lemma C1_witness :
  (In (sample_call, answering 201 (output_body sample_text) sample_call)
      (calls (answering 201 (output_body sample_text))
         (Main.chat_completions sample_request))
   /\ exists body choice message,
        Main.endpoint (answering 201 (output_body sample_text)) sample_request
        = Json 200 body
        /\ Main.ChatResponse.choices body = Some [choice]
        /\ Main.Choices.message choice = Some message
        /\ Main.ResponseMessage.content message = Some (lit "hi"))
  /\ (In (sample_call2, answering 201 (output_body sample_text) sample_call2)
         (calls (answering 201 (output_body sample_text))
            (Main2.chat_completions sample_request2))
      /\ exists body,
           Main2.endpoint (answering 201 (output_body sample_text)) sample_request2
           = Json 200 body
           /\ Main2.ChatResponse.output body = lit "hi").
Proof.
  destruct (C1_success_returns_trimmed_output
              (answering 201 (output_body sample_text)) sample_text)
    as [H1 [H2 _]].
  split; split.
  - left. reflexivity.
  - apply (H1 sample_request sample_call
             (mkResponse 201 (output_body sample_text))
             [ (lit "output", VStr sample_text) ]);
      [left; reflexivity | reflexivity | reflexivity | reflexivity].
  - left. reflexivity.
  - apply (H2 sample_request2 sample_call2
             (mkResponse 201 (output_body sample_text))
             [ (lit "output", VStr sample_text) ]);
      [left; reflexivity | reflexivity | reflexivity | reflexivity].
Defined.

(** C2. The outbound body has its top-level [model] field equal to the
    literal ["chat"], its [baseModel] field equal to the model of the
    inbound request and its [noStream] field equal to [True], whatever the
    request: in the body the client builds from any model and messages, and
    in every call either handler makes.  The handler of main2.py always
    makes such a call; that of main.py does whenever every message has a
    role. *)
Theorem C2_outbound_model_baseModel_noStream :
  (forall (model : str) (messages : list dict),
      exists d d2,
        Main.GizAI.data model messages = VDict d
        /\ Main2.GizAI.data model messages = VDict d2
        /\ dict_get d (lit "model") = Some (VStr (lit "chat"))
        /\ dict_get d (lit "baseModel") = Some (VStr model)
        /\ dict_get d (lit "noStream") = Some (VBool true)
        /\ dict_get d2 (lit "model") = Some (VStr (lit "chat"))
        /\ dict_get d2 (lit "baseModel") = Some (VStr model)
        /\ dict_get d2 (lit "noStream") = Some (VBool true))
  /\ (forall (srv : provider) (request : Main.ChatRequest.t),
      Forall (fun c =>
                body_field c (lit "model") = Some (VStr (lit "chat"))
                /\ body_field c (lit "baseModel")
                   = Some (VStr (Main.ChatRequest.model request))
                /\ body_field c (lit "noStream") = Some (VBool true))
        (map fst (calls srv (Main.chat_completions request))))
  /\ (forall (srv : provider) (request : Main.ChatRequest.t),
      Forall (fun msg => Main.Message.role msg <> None)
        (Main.ChatRequest.messages request) ->
      List.length (calls srv (Main.chat_completions request)) = 1%nat)
  /\ (forall (srv : provider) (request : Main2.ChatRequest.t),
      exists c,
        map fst (calls srv (Main2.chat_completions request)) = [c]
        /\ body_field c (lit "model") = Some (VStr (lit "chat"))
        /\ body_field c (lit "baseModel")
           = Some (VStr (Main2.ChatRequest.model request))
        /\ body_field c (lit "noStream") = Some (VBool true)).
Proof.
  split; [|split; [|split]].
  - intros model messages. do 2 eexists. repeat split.
  - intros srv request. pose proof (Main_calls srv request) as H.
    destruct (Main.translate (Main.ChatRequest.messages request)) as [e|ds].
    + rewrite H. constructor.
    + cbv zeta in H. rewrite H. repeat constructor.
  - intros srv request Hroles.
    destruct (Main_translate_total _ Hroles) as [ds Hds].
    pose proof (Main_calls srv request) as H. rewrite Hds in H.
    cbv zeta in H. rewrite H. reflexivity.
  - intros srv request. pose proof (Main2_calls srv request) as H.
    cbv zeta in H. rewrite H. eexists. repeat split.
Qed.

Lemma C2_witness :
  Forall (fun msg => Main.Message.role msg <> None)
    (Main.ChatRequest.messages sample_request)
  /\ List.length (calls (answering 201 (output_body sample_text))
               (Main.chat_completions sample_request)) = 1%nat.
Proof.
  split.
  - repeat constructor; discriminate.
  - apply (proj1 (proj2 (proj2 C2_outbound_model_baseModel_noStream))).
    repeat constructor; discriminate.
Defined.

(** C3. If the outbound provider call returns a status other than 201, the
    provider client fails with an exception whose text carries the status,
    and the endpoint answers 500 with a detail that mentions it. *)
Theorem C3_other_status_is_500 (srv : provider) :
  (forall (model : str) (messages : list dict) (proxy : option str)
          (c : Call) (r : Response),
      In (c, inr r) (calls srv (Main.GizAI.create_async_generator model messages proxy)) ->
      status r <> 201 ->
      result srv (Main.GizAI.create_async_generator model messages proxy)
      = inl (Exception (lit "Unexpected response status: " ++ str_of_int (status r))))
  /\ (forall (request : Main.ChatRequest.t) (c : Call) (r : Response),
      In (c, inr r) (calls srv (Main.chat_completions request)) ->
      status r <> 201 ->
      Main.endpoint srv request
      = Detail 500 (lit "Unexpected response status: " ++ str_of_int (status r))
      /\ contains (str_of_int (status r))
           (lit "Unexpected response status: " ++ str_of_int (status r)))
  /\ (forall (model : str) (messages : list dict) (proxy : option str)
          (c : Call) (r : Response),
      In (c, inr r) (calls srv (Main2.GizAI.create_async_generator model messages proxy)) ->
      status r <> 201 ->
      result srv (Main2.GizAI.create_async_generator model messages proxy)
      = inl (Exception (lit "Unexpected response status: " ++ str_of_int (status r))))
  /\ (forall (request : Main2.ChatRequest.t) (c : Call) (r : Response),
      In (c, inr r) (calls srv (Main2.chat_completions request)) ->
      status r <> 201 ->
      Main2.endpoint srv request
      = Detail 500 (lit "Unexpected response status: " ++ str_of_int (status r))
      /\ contains (str_of_int (status r))
           (lit "Unexpected response status: " ++ str_of_int (status r))).
Proof.
  assert (Hc : forall n, contains (str_of_int n)
                           (lit "Unexpected response status: " ++ str_of_int n)).
  { intros n. exists (lit "Unexpected response status: "), [].
    now rewrite app_nil_r. }
  split; [|split; [|split]].
  - intros model messages proxy c r Hin Hs.
    apply Main_client_calls in Hin as [_ ->]. now apply client_outcome_status.
  - intros request c r Hin Hs. split; [|apply Hc].
    rewrite (Main_endpoint_of_call srv request c (inr r) Hin).
    rewrite (client_outcome_status r Hs). reflexivity.
  - intros model messages proxy c r Hin Hs.
    apply Main2_client_calls in Hin as [_ ->]. now apply client_outcome_status.
  - intros request c r Hin Hs. split; [|apply Hc].
    rewrite (Main2_endpoint_of_call srv request c (inr r) Hin).
    rewrite (client_outcome_status r Hs). reflexivity.
Qed.

Lemma C3_witness :
  (In (sample_call, answering 403 (inr VNone) sample_call)
      (calls (answering 403 (inr VNone)) (Main.chat_completions sample_request))
   /\ 403 <> 201
   /\ Main.endpoint (answering 403 (inr VNone)) sample_request
      = Detail 500 (lit "Unexpected response status: 403"))
  /\ (In (sample_call2, answering 403 (inr VNone) sample_call2)
         (calls (answering 403 (inr VNone)) (Main2.chat_completions sample_request2))
      /\ Main2.endpoint (answering 403 (inr VNone)) sample_request2
         = Detail 500 (lit "Unexpected response status: 403")).
Proof.
  destruct (C3_other_status_is_500 (answering 403 (inr VNone)))
    as [_ [H1 [_ H2]]].
  split; [split; [|split]|split].
  - left. reflexivity.
  - discriminate.
  - apply (H1 sample_request sample_call (mkResponse 403 (inr VNone)));
      [left; reflexivity | discriminate].
  - left. reflexivity.
  - apply (H2 sample_request2 sample_call2 (mkResponse 403 (inr VNone)));
      [left; reflexivity | discriminate].
Defined.

Lemma client_outcome_lacks_output (r : Response) :
  status r = 201 ->
  lacks_output (json r) = true ->
  exists e,
    client_outcome (inr r) = inl e
    /\ (forall e', json r = inl e' -> e = e')
    /\ (forall d, json r = inr (VDict d) -> e = KeyError (lit "output")).
Proof.
  intros Hs Hl. unfold client_outcome. rewrite Hs. cbn [Z.eqb Pos.eqb].
  destruct (json r) as [e|v]; cbn [lacks_output] in Hl.
  - exists e. repeat split; congruence.
  - destruct v; cbn [subscript];
      try (eexists; split; [reflexivity | split; intros; congruence]).
    destruct (dict_get d (lit "output")); [discriminate|].
    eexists. split; [reflexivity | split; intros; congruence].
Qed.

(** C7. If the outbound provider call returns status 201 with a body that
    holds no [output] field, or that is not JSON, the provider client fails
    (with the exception of [response.json()] for a body that is not JSON,
    with a [KeyError] for an object without the key) and the endpoint
    answers 500. *)
Theorem C7_missing_output_is_500 (srv : provider) :
  (forall (model : str) (messages : list dict) (proxy : option str)
          (c : Call) (r : Response),
      In (c, inr r) (calls srv (Main.GizAI.create_async_generator model messages proxy)) ->
      status r = 201 ->
      lacks_output (json r) = true ->
      exists e,
        result srv (Main.GizAI.create_async_generator model messages proxy) = inl e
        /\ (forall e', json r = inl e' -> e = e')
        /\ (forall d, json r = inr (VDict d) -> e = KeyError (lit "output")))
  /\ (forall (request : Main.ChatRequest.t) (c : Call) (r : Response),
      In (c, inr r) (calls srv (Main.chat_completions request)) ->
      status r = 201 ->
      lacks_output (json r) = true ->
      exists detail, Main.endpoint srv request = Detail 500 detail)
  /\ (forall (model : str) (messages : list dict) (proxy : option str)
          (c : Call) (r : Response),
      In (c, inr r) (calls srv (Main2.GizAI.create_async_generator model messages proxy)) ->
      status r = 201 ->
      lacks_output (json r) = true ->
      exists e,
        result srv (Main2.GizAI.create_async_generator model messages proxy) = inl e
        /\ (forall e', json r = inl e' -> e = e')
        /\ (forall d, json r = inr (VDict d) -> e = KeyError (lit "output")))
  /\ (forall (request : Main2.ChatRequest.t) (c : Call) (r : Response),
      In (c, inr r) (calls srv (Main2.chat_completions request)) ->
      status r = 201 ->
      lacks_output (json r) = true ->
      exists detail, Main2.endpoint srv request = Detail 500 detail).
Proof.
  split; [|split; [|split]].
  - intros model messages proxy c r Hin Hs Hl.
    apply Main_client_calls in Hin as [_ ->].
    now apply client_outcome_lacks_output.
  - intros request c r Hin Hs Hl.
    rewrite (Main_endpoint_of_call srv request c (inr r) Hin).
    destruct (client_outcome_lacks_output r Hs Hl) as [e [-> _]]. now eexists.
  - intros model messages proxy c r Hin Hs Hl.
    apply Main2_client_calls in Hin as [_ ->].
    now apply client_outcome_lacks_output.
  - intros request c r Hin Hs Hl.
    rewrite (Main2_endpoint_of_call srv request c (inr r) Hin).
    destruct (client_outcome_lacks_output r Hs Hl) as [e [-> _]]. now eexists.
Qed.

Lemma C7_witness :
  (In (sample_call, answering 201 (inr (VDict [])) sample_call)
      (calls (answering 201 (inr (VDict []))) (Main.chat_completions sample_request))
   /\ lacks_output (inr (VDict [])) = true
   /\ exists detail,
        Main.endpoint (answering 201 (inr (VDict []))) sample_request
        = Detail 500 detail)
  /\ (In (sample_call2, answering 201 (inr (VDict [])) sample_call2)
         (calls (answering 201 (inr (VDict []))) (Main2.chat_completions sample_request2))
      /\ exists detail,
           Main2.endpoint (answering 201 (inr (VDict []))) sample_request2
           = Detail 500 detail).
Proof.
  destruct (C7_missing_output_is_500 (answering 201 (inr (VDict []))))
    as [_ [H1 [_ H2]]].
  split; [split; [|split]|split].
  - left. reflexivity.
  - reflexivity.
  - apply (H1 sample_request sample_call (mkResponse 201 (inr (VDict []))));
      [left; reflexivity | reflexivity | reflexivity].
  - left. reflexivity.
  - apply (H2 sample_request2 sample_call2 (mkResponse 201 (inr (VDict []))));
      [left; reflexivity | reflexivity | reflexivity].
Defined.

(** C8. In main.py the composer never fails: for every text it gives an
    envelope with exactly one choice, whose message has the assistant role
    and the text as content, with [finish_reason] ["stop"], [index] 0, the
    fixed identifier and creation time of the source, and the three usage
    counters at zero. *)
Theorem C8_compose_envelope (text model : str) :
  exists message,
    Main.compose text model =
    inr (Main.ChatResponse.mk
           (Some (lit "chatcmpl-dc4f6c13-7739-4acc-8940-ec822ccb24dc"))
           (Some [ Main.Choices.mk (Some (lit "stop")) (Some 0) (Some message) ])
           (Some 1735359843)
           (Some model)
           (Some (lit "chat.completion"))
           None None
           (Some (Main.Usage.mk (Some 0) (Some 0) (Some 0) None None))
           None)
    /\ Main.ResponseMessage.role message = Main.ASSISTANT
    /\ Main.value (Main.ResponseMessage.role message) = lit "assistant"
    /\ Main.ResponseMessage.content message = Some text.
Proof.
  exists (Main.ResponseMessage.mk (Some text) Main.ASSISTANT None None).
  rewrite Main_compose_ok. repeat split.
Qed.

(** C9. Given the same model, translated messages and proxy, the provider
    clients of the two adapters send the same request (same URL, same
    headers, same body) and end the same way against every provider; the
    client of main2.py only prints the body before it sends it. *)
Theorem C9_clients_agree (srv : provider) (model : str) (messages : list dict)
    (proxy : option str) :
  Main.GizAI.api_endpoint = Main2.GizAI.api_endpoint
  /\ Main.GizAI.headers = Main2.GizAI.headers
  /\ Main.GizAI.data model messages = Main2.GizAI.data model messages
  /\ calls srv (Main.GizAI.create_async_generator model messages proxy)
     = calls srv (Main2.GizAI.create_async_generator model messages proxy)
  /\ result srv (Main.GizAI.create_async_generator model messages proxy)
     = result srv (Main2.GizAI.create_async_generator model messages proxy)
  /\ fst (run srv (Main2.GizAI.create_async_generator model messages proxy))
     = Printed (Line (lit "Request to API endpoint:"))
         :: Printed (JsonDumps (Main2.GizAI.data model messages) 2)
         :: fst (run srv (Main.GizAI.create_async_generator model messages proxy)).
Proof.
  pose proof (Main_client_run srv model messages proxy) as R1.
  pose proof (Main2_client_run srv model messages proxy) as R2.
  cbv zeta in R1, R2. unfold calls, result. rewrite R1, R2.
  repeat split.
Qed.

(** C10. The outbound calls depend on the model and the messages of the
    inbound request only: two requests of main.py that differ in
    [temperature], or two requests of main2.py that differ in [mode] and
    [noStream], lead to the same calls, hence to the same outbound body. *)
Theorem C10_body_ignores_flags (srv : provider) :
  (forall (model : str) (messages : list Main.Message.t)
          (temperature temperature' : option float),
      calls srv (Main.chat_completions (Main.ChatRequest.mk model messages temperature))
      = calls srv (Main.chat_completions (Main.ChatRequest.mk model messages temperature')))
  /\ (forall (model : str) (messages : list Main2.Message.t)
          (mode mode' : str) (noStream noStream' : bool),
      calls srv (Main2.chat_completions (Main2.ChatRequest.mk model messages mode noStream))
      = calls srv (Main2.chat_completions (Main2.ChatRequest.mk model messages mode' noStream'))).
Proof. split; intros; reflexivity. Qed.

(** C6. The outbound [input.messages] list has one entry per inbound
    message, in the same order: the i-th entry is the dictionary of the
    i-th message.  So it is in every call of the handler of main.py (which
    makes one when every message has a role) and in the call the handler of
    main2.py always makes; in particular the inbound messages
    [{role: system, content: be terse}, {role: user, content: hi}] of
    main.py give two entries of types [system] and [human], in that
    order. *)
Theorem C6_messages_keep_order_and_count (srv : provider) :
  (forall (request : Main.ChatRequest.t),
      Forall (fun c =>
                exists ds,
                  input_messages c = Some (map VDict ds)
                  /\ Forall2 (fun msg d => Main.message_dict msg = inr d)
                       (Main.ChatRequest.messages request) ds
                  /\ List.length ds = List.length (Main.ChatRequest.messages request))
        (map fst (calls srv (Main.chat_completions request))))
  /\ (forall (request : Main.ChatRequest.t),
      Forall (fun msg => Main.Message.role msg <> None)
        (Main.ChatRequest.messages request) ->
      List.length (calls srv (Main.chat_completions request)) = 1%nat)
  /\ (forall (request : Main2.ChatRequest.t),
      exists c,
        map fst (calls srv (Main2.chat_completions request)) = [c]
        /\ input_messages c
           = Some (map VDict (map Main2.message_dict (Main2.ChatRequest.messages request)))
        /\ List.length (map Main2.message_dict (Main2.ChatRequest.messages request))
           = List.length (Main2.ChatRequest.messages request))
  /\ (forall (model : str) (temperature : option float),
      exists c,
        sent (fst (Main.post_chat_completions srv model
                     [ role_content "system" "be terse"; role_content "user" "hi" ]
                     temperature)) = [c]
        /\ input_messages c
           = Some [ VDict [ (lit "type", VStr (lit "system"));
                            (lit "content", VStr (lit "be terse")) ];
                    VDict [ (lit "type", VStr (lit "human"));
                            (lit "content", VStr (lit "hi")) ] ]).
Proof.
  split; [|split; [|split]].
  - intros request. pose proof (Main_calls srv request) as H.
    destruct (Main.translate (Main.ChatRequest.messages request)) as [e|ds] eqn:E.
    + rewrite H. constructor.
    + cbv zeta in H. rewrite H. constructor; [|constructor].
      apply Main_translate_inr in E. exists ds. repeat split.
      * exact E.
      * symmetry. exact (Forall2_length E).
  - intros request Hroles.
    destruct (Main_translate_total _ Hroles) as [ds Hds].
    pose proof (Main_calls srv request) as H. rewrite Hds in H.
    cbv zeta in H. rewrite H. reflexivity.
  - intros request. pose proof (Main2_calls srv request) as H.
    cbv zeta in H. rewrite H. eexists. repeat split. apply length_map.
  - intros model temperature.
    unfold Main.post_chat_completions.
    replace (Main.ChatRequest.validate model
               [role_content "system" "be terse"; role_content "user" "hi"] temperature)
      with (Some (Main.ChatRequest.mk model
                    [ Main.Message.mk (Some (lit "be terse")) (Some Main.SYSTEM) None None;
                      Main.Message.mk (Some (lit "hi")) (Some Main.HUMAN) None None ]
                    temperature))
      by reflexivity.
    pose proof (Main_run_translated srv
                  (Main.ChatRequest.mk model
                     [ Main.Message.mk (Some (lit "be terse")) (Some Main.SYSTEM) None None;
                       Main.Message.mk (Some (lit "hi")) (Some Main.HUMAN) None None ]
                     temperature) _ eq_refl) as R.
    cbv zeta in R. rewrite R.
    match goal with |- context [client_outcome ?a] =>
      destruct (client_outcome a) as [e|[text|]] end;
      (eexists; split; reflexivity).
Qed.

Lemma C6_witness :
  Forall (fun msg => Main.Message.role msg <> None)
    (Main.ChatRequest.messages sample_request)
  /\ List.length (calls (answering 201 (output_body sample_text))
                    (Main.chat_completions sample_request)) = 1%nat.
Proof.
  split.
  - repeat constructor; discriminate.
  - apply (proj1 (proj2 (C6_messages_keep_order_and_count
                           (answering 201 (output_body sample_text))))).
    repeat constructor; discriminate.
Defined.

(** ** Roles *)

Lemma validate_all_In {A : Type} (f : pyval -> option A) (l : list pyval) (v : pyval) :
  In v l -> f v = None -> validate_all f l = None.
Proof.
  induction l as [|x l IH]; simpl; [intros []|].
  intros [->|Hin] Hv.
  - rewrite Hv. reflexivity.
  - rewrite (IH Hin Hv). destruct (f x); reflexivity.
Qed.

Lemma Main_of_value_None (s : str) :
  Main.of_value s = None ->
  str_eqb s (lit "human") = false /\ str_eqb s (lit "ai") = false
  /\ str_eqb s (lit "system") = false /\ str_eqb s (lit "assistant") = false.
Proof.
  unfold Main.of_value.
  destruct (str_eqb s (lit "human")); [discriminate|].
  destruct (str_eqb s (lit "ai")); [discriminate|].
  destruct (str_eqb s (lit "system")); [discriminate|].
  destruct (str_eqb s (lit "assistant")); [discriminate|].
  intros _. repeat split.
Qed.

(** A string that is neither a value of the enumeration nor an alias is
    returned as it is by the validator of main.py, and then refused by the
    type of the field. *)
Lemma Main_unrecognized_role (s : str) (d : dict) :
  Main.of_value s = None ->
  s <> lit "user" ->
  dict_get d (lit "role") = Some (VStr s) ->
  Main.Message.map_role (Main.Plain (VStr s)) = Main.Plain (VStr s)
  /\ Main.Message.validate (VDict d) = None.
Proof.
  intros Hv Hu Hd.
  assert (Hm : Main.Message.map_role (Main.Plain (VStr s)) = Main.Plain (VStr s)).
  { unfold Main.Message.map_role, Main.eq_str.
    rewrite (str_eqb_neq _ _ Hu).
    destruct (Main_of_value_None s Hv) as [_ [_ [_ ->]]]. reflexivity. }
  split; [exact Hm|].
  unfold Main.Message.validate, Main.Message.validate_role.
  rewrite Hd, Hm. cbn [Main.validate_optional_MessageType Main.validate_MessageType].
  rewrite Hv. cbn [option_map].
  destruct (optional_str d (lit "content")); reflexivity.
Qed.

Lemma Main2_unrecognized_type (s : str) (d : dict) :
  Main2.of_value s = None ->
  dict_get d (lit "type") = Some (VStr s) ->
  Main2.Message.validate (VDict d) = None.
Proof.
  intros Hv Hd. unfold Main2.Message.validate. rewrite Hd.
  cbn [Main2.validate_MessageType]. rewrite Hv.
  destruct (required_str d (lit "content")); reflexivity.
Qed.

(** A single inbound message that main.py accepts and translates is the
    single entry of the outbound list. *)
Lemma Main_post_single (srv : provider) (model : str) (d md : dict)
    (msg : Main.Message.t) (temperature : option float) :
  Main.Message.validate (VDict d) = Some msg ->
  Main.message_dict msg = inr md ->
  exists c,
    sent (fst (Main.post_chat_completions srv model [VDict d] temperature)) = [c]
    /\ input_messages c = Some [VDict md].
Proof.
  intros Hv Hm.
  unfold Main.post_chat_completions, Main.ChatRequest.validate.
  cbn [validate_all]. rewrite Hv.
  assert (Ht : Main.translate
                 (Main.ChatRequest.messages (Main.ChatRequest.mk model [msg] temperature))
               = inr [md]).
  { cbn [Main.ChatRequest.messages Main.translate]. rewrite Hm. reflexivity. }
  pose proof (Main_run_translated srv _ _ Ht) as R. cbv zeta in R. rewrite R.
  match goal with |- context [client_outcome ?a] =>
    destruct (client_outcome a) as [e|[text|]] end;
    (eexists; split; reflexivity).
Qed.

(** C4, as stated, fails: an inbound message whose role is the unrecognized
    string ["tool"] never reaches an outbound body.  Both adapters refuse
    the request with 422 and make no call at all. *)
Lemma C4_counterexample :
  Main.post_chat_completions (answering 201 (output_body sample_text))
    (lit "qwen-coder-32b") [ role_content "tool" "hi" ] None
  = ([], Unprocessable)
  /\ Main2.post_chat_completions (answering 201 (output_body sample_text))
       (lit "qwen-coder-32b") [ type_content "tool" "hi" ] None None
     = ([], Unprocessable)
  /\ sent (fst (Main.post_chat_completions (answering 201 (output_body sample_text))
                  (lit "qwen-coder-32b") [ role_content "tool" "hi" ] None))
     = []
  /\ status_code (snd (Main.post_chat_completions (answering 201 (output_body sample_text))
                         (lit "qwen-coder-32b") [ role_content "tool" "hi" ] None))
     = 422.
Proof. repeat split. Qed.

Lemma forallb_In_false {A : Type} (f : A -> bool) (l : list A) (x : A) :
  In x l -> f x = false -> forallb f l = false.
Proof.
  intros Hin Hx. destruct (forallb f l) eqn:E; [|reflexivity].
  rewrite forallb_forall in E. rewrite (E x Hin) in Hx. discriminate.
Qed.

(** The report of main.py repeats an unrecognized role. *)
Lemma Main_unrecognized_role_refused (s : str) (d : dict) (messages : list pyval) :
  Main.of_value s = None ->
  s <> lit "user" ->
  In (VDict d) messages ->
  dict_get d (lit "role") = Some (VStr s) ->
  In (VStr s) (Main.ChatRequest.refused_inputs messages).
Proof.
  intros Hv Hu Hin Hd. unfold Main.ChatRequest.refused_inputs.
  apply in_flat_map. exists (VDict d). split; [exact Hin|].
  cbn [Main.Message.refused_inputs]. apply in_or_app. right.
  apply in_or_app. left. unfold Main.Message.refused_role. rewrite Hd.
  rewrite (proj1 (Main_unrecognized_role s d Hv Hu Hd)).
  cbn [Main.validate_optional_MessageType Main.validate_MessageType].
  rewrite Hv. left. reflexivity.
Qed.

(** The report of main2.py repeats an unrecognized type. *)
Lemma Main2_unrecognized_type_refused (s : str) (d : dict) (messages : list pyval) :
  Main2.of_value s = None ->
  In (VDict d) messages ->
  dict_get d (lit "type") = Some (VStr s) ->
  In (VStr s) (Main2.ChatRequest.refused_inputs messages).
Proof.
  intros Hv Hin Hd. unfold Main2.ChatRequest.refused_inputs.
  apply in_flat_map. exists (VDict d). split; [exact Hin|].
  cbn [Main2.Message.refused_inputs]. apply in_or_app. left.
  unfold refused_field, Main2.Message.read_type. rewrite Hd.
  cbn [Main2.validate_MessageType]. rewrite Hv. left. reflexivity.
Qed.

(** C4, amended.  A role string that is neither a value of the enumeration
    nor an alias is returned unchanged by the role validator of main.py,
    which raises nothing; the enumeration type of the field then refuses
    the message, in both adapters: no outbound body is built and no call is
    made.  The answer is the 422 whose report repeats the refused inputs of
    the body, the role among them, when that report can be rendered, and
    the server's 500 when it cannot, as when the role holds a lone
    surrogate.  The translation stage validates nothing: its one failure is
    the attribute error of a message without a role. *)
Theorem C4_unrecognized_role_is_refused (s : str) :
  (Main.of_value s = None ->
   s <> lit "user" ->
   Main.Message.map_role (Main.Plain (VStr s)) = Main.Plain (VStr s)
   /\ forall (srv : provider) (model : str) (messages : list pyval)
             (temperature : option float) (d : dict),
        In (VDict d) messages ->
        dict_get d (lit "role") = Some (VStr s) ->
        Main.post_chat_completions srv model messages temperature
        = ([], if forallb renderable (Main.ChatRequest.refused_inputs messages)
               then Unprocessable else ServerError)
        /\ In (VStr s) (Main.ChatRequest.refused_inputs messages)
        /\ (encodable s = false ->
            Main.post_chat_completions srv model messages temperature
            = ([], ServerError)))
  /\ (Main2.of_value s = None ->
      forall (srv : provider) (model : str) (messages : list pyval)
             (mode : option str) (noStream : option bool) (d : dict),
        In (VDict d) messages ->
        dict_get d (lit "type") = Some (VStr s) ->
        Main2.post_chat_completions srv model messages mode noStream
        = ([], if forallb renderable (Main2.ChatRequest.refused_inputs messages)
               then Unprocessable else ServerError)
        /\ In (VStr s) (Main2.ChatRequest.refused_inputs messages)
        /\ (encodable s = false ->
            Main2.post_chat_completions srv model messages mode noStream
            = ([], ServerError)))
  /\ (forall (msgs : list Main.Message.t) (e : exc),
      Main.translate msgs = inl e -> e = no_attribute VNone (lit "value")).
Proof.
  split; [|split].
  - intros Hv Hu. split.
    + unfold Main.Message.map_role, Main.eq_str.
      rewrite (str_eqb_neq _ _ Hu).
      destruct (Main_of_value_None s Hv) as [_ [_ [_ ->]]]. reflexivity.
    + intros srv model messages temperature d Hin Hd.
      assert (Hp : Main.post_chat_completions srv model messages temperature
                   = ([], reject (Main.ChatRequest.refused_inputs messages))).
      { unfold Main.post_chat_completions, Main.ChatRequest.validate.
        rewrite (validate_all_In _ _ _ Hin
                   (proj2 (Main_unrecognized_role s d Hv Hu Hd))).
        reflexivity. }
      pose proof (Main_unrecognized_role_refused s d messages Hv Hu Hin Hd) as Hr.
      split; [exact Hp|]. split; [exact Hr|].
      intros He. rewrite Hp. unfold reject.
      rewrite (forallb_In_false renderable _ (VStr s) Hr He). reflexivity.
  - intros Hv srv model messages mode noStream d Hin Hd.
    assert (Hp : Main2.post_chat_completions srv model messages mode noStream
                 = ([], reject (Main2.ChatRequest.refused_inputs messages))).
    { unfold Main2.post_chat_completions, Main2.ChatRequest.validate.
      rewrite (validate_all_In _ _ _ Hin (Main2_unrecognized_type s d Hv Hd)).
      reflexivity. }
    pose proof (Main2_unrecognized_type_refused s d messages Hv Hin Hd) as Hr.
    split; [exact Hp|]. split; [exact Hr|].
    intros He. rewrite Hp. unfold reject.
    rewrite (forallb_In_false renderable _ (VStr s) Hr He). reflexivity.
  - intros msgs e H. now apply Main_translate_inl in H.
Qed.

Lemma C4_witness :
  Main.of_value (lit "tool") = None
  /\ lit "tool" <> lit "user"
  /\ Main2.of_value (lit "tool") = None
  /\ Main.Message.map_role (Main.Plain (VStr (lit "tool")))
     = Main.Plain (VStr (lit "tool"))
  /\ Main.post_chat_completions (answering 201 (output_body sample_text))
       (lit "qwen-coder-32b")
       [ role_content "system" "be terse"; role_content "tool" "hi" ] None
     = ([], Unprocessable)
  /\ Main2.post_chat_completions (answering 201 (output_body sample_text))
       (lit "qwen-coder-32b")
       [ type_content "system" "be terse"; type_content "tool" "hi" ] None None
     = ([], Unprocessable).
Proof.
  destruct (C4_unrecognized_role_is_refused (lit "tool")) as [H1 [H2 _]].
  assert (Hu : lit "tool" <> lit "user") by discriminate.
  destruct (H1 eq_refl Hu) as [Hm Hp].
  split; [reflexivity|]. split; [exact Hu|]. split; [reflexivity|].
  split; [exact Hm|]. split.
  - apply (proj1 (Hp (answering 201 (output_body sample_text)) (lit "qwen-coder-32b")
                    [ role_content "system" "be terse"; role_content "tool" "hi" ] None
                    [ (lit "role", VStr (lit "tool")); (lit "content", VStr (lit "hi")) ]
                    (or_intror (or_introl eq_refl)) eq_refl)).
  - apply (proj1 (H2 eq_refl (answering 201 (output_body sample_text))
                    (lit "qwen-coder-32b")
                    [ type_content "system" "be terse"; type_content "tool" "hi" ]
                    None None
                    [ (lit "type", VStr (lit "tool")); (lit "content", VStr (lit "hi")) ]
                    (or_intror (or_introl eq_refl)) eq_refl)).
Defined.

(** ** Further properties of the two adapters *)

(** The generator of the client never ends without an item: its outcome is
    an exception or a text. *)
Lemma client_outcome_cases (a : exc + Response) :
  (exists e, client_outcome a = inl e)
  \/ (exists text, client_outcome a = inr (Some text)).
Proof.
  unfold client_outcome. destruct a as [e|r]; [left; now exists e|].
  destruct (status r =? 201); [|left; now eexists].
  destruct (json r) as [e|v]; [left; now exists e|].
  destruct (subscript v (lit "output")) as [e|o]; [left; now exists e|].
  destruct (call_strip o) as [e|text]; [left; now exists e | right; now exists text].
Qed.

(** A text comes out of the client only from a 201 whose body is an object
    with a string under [output]. *)
Lemma client_outcome_text (a : exc + Response) (text : str) :
  client_outcome a = inr (Some text) ->
  exists r d X,
    a = inr r /\ status r = 201 /\ json r = inr (VDict d)
    /\ dict_get d (lit "output") = Some (VStr X) /\ text = strip X.
Proof.
  unfold client_outcome. destruct a as [e|r]; [discriminate|].
  destruct (status r =? 201) eqn:Hs; [|discriminate].
  apply Z.eqb_eq in Hs.
  destruct (json r) as [e|v] eqn:Hj; [discriminate|].
  destruct v; cbn [subscript]; try discriminate.
  destruct (dict_get d (lit "output")) as [o|] eqn:Ho; [|discriminate].
  destruct o; cbn [call_strip]; try discriminate.
  intros H. injection H as <-. exists r, d, s. repeat split; assumption.
Qed.

(** The events and the answer of main.py, in full. *)
Lemma Main_run_cases (srv : provider) (request : Main.ChatRequest.t) :
  (exists e,
      Main.translate (Main.ChatRequest.messages request) = inl e
      /\ run srv (Main.chat_completions request)
         = ([Printed (Line (lit "Error: " ++ str_exc e))],
            inl (HTTPException 500 (str_exc e))))
  \/ (exists ds c,
      Main.translate (Main.ChatRequest.messages request) = inr ds
      /\ c = mkCall Main.GizAI.api_endpoint Main.GizAI.headers
               (Main.GizAI.data (Main.ChatRequest.model request) ds) None
      /\ ((exists e,
              client_outcome (srv c) = inl e
              /\ run srv (Main.chat_completions request)
                 = ([Posted c (srv c); Printed (Line (lit "Error: " ++ str_exc e))],
                    inl (HTTPException 500 (str_exc e))))
          \/ (exists text,
              client_outcome (srv c) = inr (Some text)
              /\ run srv (Main.chat_completions request)
                 = ([Posted c (srv c)],
                    Main.compose text (Main.ChatRequest.model request))))).
Proof.
  destruct (Main.translate (Main.ChatRequest.messages request)) as [e|ds] eqn:E.
  - left. exists e. split; [reflexivity|]. now apply Main_run_untranslated.
  - right. eexists ds, _. split; [reflexivity|]. split; [reflexivity|].
    pose proof (Main_run_translated srv request ds E) as R. cbv zeta in R.
    rewrite R.
    match goal with |- context [client_outcome ?a] =>
      destruct (client_outcome_cases a) as [[e He]|[text Ht]] end.
    + left. exists e. rewrite He. now split.
    + right. exists text. rewrite Ht. now split.
Qed.

(** The events and the answer of main2.py, in full. *)
Lemma Main2_run_cases (srv : provider) (request : Main2.ChatRequest.t) :
  exists c,
    c = mkCall Main2.GizAI.api_endpoint Main2.GizAI.headers
          (Main2.GizAI.data (Main2.ChatRequest.model request)
             (Main2.translate (Main2.ChatRequest.messages request))) None
    /\ fst (run srv (Main2.chat_completions request))
       = [Printed (Line (lit "Request to API endpoint:"));
          Printed (JsonDumps (json_data c) 2);
          Posted c (srv c)]
    /\ ((exists e,
            client_outcome (srv c) = inl e
            /\ result srv (Main2.chat_completions request)
               = inl (HTTPException 500 (str_exc e)))
        \/ (exists text,
            client_outcome (srv c) = inr (Some text)
            /\ result srv (Main2.chat_completions request)
               = inr (Main2.ChatResponse.mk text))).
Proof.
  eexists. split; [reflexivity|].
  pose proof (Main2_run srv request) as R. cbv zeta in R.
  unfold result. rewrite R. split; [reflexivity|].
  match goal with |- context [client_outcome ?a] =>
    destruct (client_outcome_cases a) as [[e He]|[text Ht]] end.
  - left. exists e. rewrite He. now split.
  - right. exists text. rewrite Ht. now split.
Qed.

Lemma validate_all_Forall2 {A : Type} (f : pyval -> option A) (l : list pyval)
    (r : list A) :
  validate_all f l = Some r -> Forall2 (fun v a => f v = Some a) l r.
Proof.
  revert r. induction l as [|v l IH]; intros r; simpl.
  - intros H. injection H as <-. constructor.
  - destruct (f v) as [a|] eqn:Hv; [|discriminate].
    destruct (validate_all f l) as [r'|]; [|discriminate].
    intros H. injection H as <-. constructor; [exact Hv | now apply IH].
Qed.

Lemma Main_post_answer (srv : provider) (model : str) (messages : list pyval)
    (temperature : option float) :
  Main.post_chat_completions srv model messages temperature
  = match Main.ChatRequest.validate model messages temperature with
    | None => ([], reject (Main.ChatRequest.refused_inputs messages))
    | Some request =>
        (fst (run srv (Main.chat_completions request)), Main.endpoint srv request)
    end.
Proof.
  unfold Main.post_chat_completions, Main.endpoint, result.
  destruct (Main.ChatRequest.validate model messages temperature) as [request|];
    [|reflexivity].
  destruct (run srv (Main.chat_completions request)). reflexivity.
Qed.

Lemma Main2_post_answer (srv : provider) (model : str) (messages : list pyval)
    (mode : option str) (noStream : option bool) :
  Main2.post_chat_completions srv model messages mode noStream
  = match Main2.ChatRequest.validate model messages mode noStream with
    | None => ([], reject (Main2.ChatRequest.refused_inputs messages))
    | Some request =>
        (fst (run srv (Main2.chat_completions request)), Main2.endpoint srv request)
    end.
Proof.
  unfold Main2.post_chat_completions, Main2.endpoint, result.
  destruct (Main2.ChatRequest.validate model messages mode noStream) as [request|];
    [|reflexivity].
  destruct (run srv (Main2.chat_completions request)). reflexivity.
Qed.

Lemma Main_validate_messages (model : str) (messages : list pyval)
    (temperature : option float) (request : Main.ChatRequest.t) :
  Main.ChatRequest.validate model messages temperature = Some request ->
  Main.ChatRequest.model request = model
  /\ Forall2 (fun v msg => Main.Message.validate v = Some msg) messages
       (Main.ChatRequest.messages request).
Proof.
  unfold Main.ChatRequest.validate.
  destruct (validate_all Main.Message.validate messages) as [ms|] eqn:E; [|discriminate].
  intros H. injection H as <-. split; [reflexivity|].
  now apply validate_all_Forall2.
Qed.

Lemma Main2_validate_messages (model : str) (messages : list pyval)
    (mode : option str) (noStream : option bool) (request : Main2.ChatRequest.t) :
  Main2.ChatRequest.validate model messages mode noStream = Some request ->
  Main2.ChatRequest.model request = model
  /\ Forall2 (fun v msg => Main2.Message.validate v = Some msg) messages
       (Main2.ChatRequest.messages request).
Proof.
  unfold Main2.ChatRequest.validate.
  destruct (validate_all Main2.Message.validate messages) as [ms|] eqn:E; [|discriminate].
  intros H. injection H as <-. split; [reflexivity|].
  now apply validate_all_Forall2.
Qed.

(** X1. In main.py an inbound message with no [role] key, or with a null
    role, passes validation; the handler then fails on [msg.role.value]
    before any call: it prints the error and the endpoint answers 500 with
    the text of the attribute error as detail, whatever the provider. *)
Theorem X1_message_without_role_is_500 (srv : provider) (model : str)
    (messages : list pyval) (temperature : option float)
    (request : Main.ChatRequest.t) (d : dict) :
  Main.ChatRequest.validate model messages temperature = Some request ->
  In (VDict d) messages ->
  dict_get d (lit "role") = None \/ dict_get d (lit "role") = Some VNone ->
  Main.post_chat_completions srv model messages temperature
  = ([Printed (Line (lit "Error: 'NoneType' object has no attribute 'value'"))],
     Detail 500 (lit "'NoneType' object has no attribute 'value'")).
Proof.
  intros Hv Hin Hrole. rewrite Main_post_answer, Hv.
  destruct (Main_validate_messages _ _ _ _ Hv) as [_ HF].
  destruct (Forall2_In_l _ _ _ _ HF Hin) as [msg [Hmsg Hval]].
  assert (Hnone : Main.Message.role msg = None).
  { unfold Main.Message.validate, Main.Message.validate_role in Hval.
    destruct (optional_str d (lit "content")) as [c|]; [|discriminate].
    destruct Hrole as [Hr|Hr]; rewrite Hr in Hval;
      cbn [Main.Message.map_role Main.eq_str Main.validate_optional_MessageType] in Hval;
      destruct (optional_list d (lit "tool_calls")) as [tc|]; try discriminate;
      destruct (optional_dict d (lit "function_call")) as [fc|]; try discriminate;
      injection Hval as <-; reflexivity. }
  destruct (Main.translate (Main.ChatRequest.messages request)) as [e|ds] eqn:E.
  - destruct (Main_translate_inl _ _ E) as [-> _].
    unfold Main.endpoint, result.
    rewrite (Main_run_untranslated srv request _ E). reflexivity.
  - apply Main_translate_inr in E.
    destruct (Forall2_In_l _ _ _ _ E Hmsg) as [dd [_ Hd]].
    unfold Main.message_dict in Hd. rewrite Hnone in Hd. discriminate.
Qed.

Lemma X1_witness :
  Main.ChatRequest.validate (lit "qwen-coder-32b")
    [ VDict [ (lit "content", VStr (lit "hi")) ] ] None
  = Some roleless_request
  /\ Main.post_chat_completions (answering 201 (output_body sample_text))
       (lit "qwen-coder-32b") [ VDict [ (lit "content", VStr (lit "hi")) ] ] None
     = ([Printed (Line (lit "Error: 'NoneType' object has no attribute 'value'"))],
        Detail 500 (lit "'NoneType' object has no attribute 'value'")).
Proof.
  split; [reflexivity|].
  apply (X1_message_without_role_is_500 _ _ _ _ roleless_request
           [ (lit "content", VStr (lit "hi")) ]);
    [reflexivity | left; reflexivity | left; reflexivity].
Defined.

(** X2. No retry and a fixed target: against any provider the handler of
    main.py makes at most one call and that of main2.py exactly one, and
    every call goes to the endpoint constant of its class, with the header
    set of the class and no proxy. *)
Theorem X2_one_call_to_fixed_target (srv : provider) :
  (forall request : Main.ChatRequest.t,
      (List.length (calls srv (Main.chat_completions request)) <= 1)%nat
      /\ Forall (fun c =>
                   url c = Main.GizAI.api_endpoint
                   /\ call_headers c = Main.GizAI.headers
                   /\ call_proxy c = None)
           (map fst (calls srv (Main.chat_completions request))))
  /\ (forall request : Main2.ChatRequest.t,
      List.length (calls srv (Main2.chat_completions request)) = 1%nat
      /\ Forall (fun c =>
                   url c = Main2.GizAI.api_endpoint
                   /\ call_headers c = Main2.GizAI.headers
                   /\ call_proxy c = None)
           (map fst (calls srv (Main2.chat_completions request)))).
Proof.
  split.
  - intros request. pose proof (Main_calls srv request) as H.
    destruct (Main.translate (Main.ChatRequest.messages request)) as [e|ds].
    + rewrite H. split; [simpl; lia | constructor].
    + cbv zeta in H. rewrite H. split; [simpl; lia | repeat constructor].
  - intros request. pose proof (Main2_calls srv request) as H.
    cbv zeta in H. rewrite H. split; [reflexivity | repeat constructor].
Qed.

(** X3. Whatever the provider does, a request that passed validation is
    answered 200 or 500 by either endpoint: no status of the provider is
    passed on, and a failure to render the answer is a 500 too. *)
Theorem X3_validated_request_is_200_or_500 (srv : provider) :
  (forall request : Main.ChatRequest.t,
      status_code (Main.endpoint srv request) = 200
      \/ status_code (Main.endpoint srv request) = 500)
  /\ (forall request : Main2.ChatRequest.t,
      status_code (Main2.endpoint srv request) = 200
      \/ status_code (Main2.endpoint srv request) = 500).
Proof.
  split; intros request.
  - unfold Main.endpoint, result.
    destruct (Main_run_cases srv request)
      as [[e [_ R]]|[ds [c [_ [_ [[e [_ R]]|[text [_ R]]]]]]]]; rewrite R;
      cbn [snd]; try (right; reflexivity).
    destruct (Main_respond_compose text (Main.ChatRequest.model request))
      as [body [_ [-> _]]].
    destruct (encodable text && encodable (Main.ChatRequest.model request));
      [left | right]; reflexivity.
  - unfold Main2.endpoint.
    destruct (Main2_run_cases srv request) as [c [_ [_ [[e [_ R]]|[text [_ R]]]]]];
      rewrite R; [right; reflexivity|].
    rewrite Main2_respond_text.
    destruct (encodable text); [left | right]; reflexivity.
Qed.



Lemma client_outcome_not_str (r : Response) (d : dict) (v : pyval) :
  status r = 201 ->
  json r = inr (VDict d) ->
  dict_get d (lit "output") = Some v ->
  (forall s, v <> VStr s) ->
  client_outcome (inr r) = inl (no_attribute v (lit "strip")).
Proof.
  intros Hs Hj Ho Hv. unfold client_outcome.
  rewrite Hs, Hj. cbn [Z.eqb Pos.eqb subscript]. rewrite Ho.
  destruct v; try reflexivity. now destruct (Hv s).
Qed.

(** X5. A 201 whose [output] is there but is not a string (a number, null,
    a list, an object) is a failure too: [.strip()] raises, and either
    endpoint answers 500 with the attribute error as detail, which names the
    type of the value. *)
Theorem X5_output_not_a_string_is_500 (srv : provider) (r : Response)
    (d : dict) (v : pyval) :
  status r = 201 ->
  json r = inr (VDict d) ->
  dict_get d (lit "output") = Some v ->
  (forall s, v <> VStr s) ->
  (forall (request : Main.ChatRequest.t) (c : Call),
      In (c, inr r) (calls srv (Main.chat_completions request)) ->
      Main.endpoint srv request
      = Detail 500 (lit "'" ++ type_name v ++ lit "' object has no attribute 'strip'"))
  /\ (forall (request : Main2.ChatRequest.t) (c : Call),
      In (c, inr r) (calls srv (Main2.chat_completions request)) ->
      Main2.endpoint srv request
      = Detail 500 (lit "'" ++ type_name v ++ lit "' object has no attribute 'strip'")).
Proof.
  intros Hs Hj Ho Hv.
  pose proof (client_outcome_not_str r d v Hs Hj Ho Hv) as Hc.
  split; intros request c Hin.
  - rewrite (Main_endpoint_of_call srv request c (inr r) Hin), Hc.
    reflexivity.
  - rewrite (Main2_endpoint_of_call srv request c (inr r) Hin), Hc.
    reflexivity.
Qed.

Lemma X5_witness :
  (In (sample_call,
       answering 201 (inr (VDict [ (lit "output", VInt 42) ])) sample_call)
      (calls (answering 201 (inr (VDict [ (lit "output", VInt 42) ])))
         (Main.chat_completions sample_request))
   /\ Main.endpoint (answering 201 (inr (VDict [ (lit "output", VInt 42) ])))
        sample_request
      = Detail 500 (lit "'int' object has no attribute 'strip'"))
  /\ Main2.endpoint (answering 201 (inr (VDict [ (lit "output", VInt 42) ])))
       sample_request2
     = Detail 500 (lit "'int' object has no attribute 'strip'").
Proof.
  destruct (X5_output_not_a_string_is_500
              (answering 201 (inr (VDict [ (lit "output", VInt 42) ])))
              (mkResponse 201 (inr (VDict [ (lit "output", VInt 42) ])))
              [ (lit "output", VInt 42) ] (VInt 42)
              eq_refl eq_refl eq_refl
              (fun s (H : VInt 42 = VStr s) =>
                 eq_ind (VInt 42)
                   (fun x => match x with VInt _ => True | _ => False end)
                   I (VStr s) H))
    as [H1 H2].
  split; [split|].
  - left. reflexivity.
  - apply (H1 sample_request sample_call). left. reflexivity.
  - apply (H2 sample_request2 sample_call2). left. reflexivity.
Defined.

Lemma Main_endpoint_200 (srv : provider) (request : Main.ChatRequest.t)
    (code : Z) (body : Main.ChatResponse.t) :
  Main.endpoint srv request = Json code body ->
  exists c text,
    In (c, srv c) (calls srv (Main.chat_completions request))
    /\ client_outcome (srv c) = inr (Some text)
    /\ fst (run srv (Main.chat_completions request)) = [Posted c (srv c)]
    /\ code = 200
    /\ Main.compose text (Main.ChatRequest.model request) = inr body.
Proof.
  unfold Main.endpoint, result, calls.
  destruct (Main_run_cases srv request)
    as [[e [_ R]]|[ds [c [_ [_ [[e [_ R]]|[text [Ht R]]]]]]]]; rewrite R;
    cbn [fst snd respond]; try discriminate.
  destruct (Main_respond_compose text (Main.ChatRequest.model request))
    as [body' [Hc [-> _]]].
  destruct (encodable text && encodable (Main.ChatRequest.model request));
    [|discriminate].
  intros H. injection H as <- <-.
  exists c, text. repeat split; [left; reflexivity | exact Ht | exact Hc].
Qed.

Lemma Main2_endpoint_200 (srv : provider) (request : Main2.ChatRequest.t)
    (code : Z) (body : Main2.ChatResponse.t) :
  Main2.endpoint srv request = Json code body ->
  exists c text,
    In (c, srv c) (calls srv (Main2.chat_completions request))
    /\ client_outcome (srv c) = inr (Some text)
    /\ code = 200
    /\ body = Main2.ChatResponse.mk text.
Proof.
  unfold Main2.endpoint, calls.
  destruct (Main2_run_cases srv request) as [c [_ [Hf [[e [_ R]]|[text [Ht R]]]]]];
    rewrite R, Hf; [cbn [respond]; discriminate|].
  rewrite Main2_respond_text. destruct (encodable text); [|discriminate].
  intros H. injection H as <- <-.
  exists c, text. repeat split; [left; reflexivity | exact Ht].
Qed.

(** X6. The only way to a JSON answer: if either endpoint answers with a
    body, the status is 200, the handler made a call that the provider
    answered 201 with an object holding a string [X] under [output], and
    the body is built from [X.strip()] (the envelope of main.py around it,
    with the model of the request; the [output] field of main2.py). *)
Theorem X6_json_answer_only_from_201_output (srv : provider) :
  (forall (request : Main.ChatRequest.t) (code : Z) (body : Main.ChatResponse.t),
      Main.endpoint srv request = Json code body ->
      exists c r d X,
        In (c, inr r) (calls srv (Main.chat_completions request))
        /\ status r = 201
        /\ json r = inr (VDict d)
        /\ dict_get d (lit "output") = Some (VStr X)
        /\ code = 200
        /\ Main.compose (strip X) (Main.ChatRequest.model request) = inr body)
  /\ (forall (request : Main2.ChatRequest.t) (code : Z) (body : Main2.ChatResponse.t),
      Main2.endpoint srv request = Json code body ->
      exists c r d X,
        In (c, inr r) (calls srv (Main2.chat_completions request))
        /\ status r = 201
        /\ json r = inr (VDict d)
        /\ dict_get d (lit "output") = Some (VStr X)
        /\ code = 200
        /\ body = Main2.ChatResponse.mk (strip X)).
Proof.
  split; intros request code body H.
  - destruct (Main_endpoint_200 srv request code body H)
      as [c [text [Hin [Ht [_ [Hc Hb]]]]]].
    destruct (client_outcome_text _ _ Ht) as [r [d [X [Ha [Hs [Hj [Ho ->]]]]]]].
    exists c, r, d, X. rewrite Ha in Hin. repeat split; assumption.
  - destruct (Main2_endpoint_200 srv request code body H)
      as [c [text [Hin [Ht [Hc Hb]]]]].
    destruct (client_outcome_text _ _ Ht) as [r [d [X [Ha [Hs [Hj [Ho ->]]]]]]].
    exists c, r, d, X. rewrite Ha in Hin. repeat split; assumption.
Qed.

Lemma X6_witness :
  Main2.endpoint (answering 201 (output_body sample_text)) sample_request2
  = Json 200 (Main2.ChatResponse.mk (lit "hi"))
  /\ exists c r d X,
       In (c, inr r)
          (calls (answering 201 (output_body sample_text))
             (Main2.chat_completions sample_request2))
       /\ status r = 201
       /\ json r = inr (VDict d)
       /\ dict_get d (lit "output") = Some (VStr X)
       /\ 200 = 200
       /\ Main2.ChatResponse.mk (lit "hi") = Main2.ChatResponse.mk (strip X).
Proof.
  split; [reflexivity|].
  apply (proj2 (X6_json_answer_only_from_201_output
                  (answering 201 (output_body sample_text)))
           sample_request2 200 (Main2.ChatResponse.mk (lit "hi"))).
  reflexivity.
Defined.

Lemma strip_no_surrounding_space (X : str) :
  no_leading_space (strip X) /\ no_leading_space (rev (strip X)).
Proof.
  destruct (strip_trimmed X) as [l [r [_ [_ [_ [H1 H2]]]]]]. now split.
Qed.

(** X7. The text of a JSON answer never begins or ends with whitespace,
    whatever the provider sent: the content of the sole choice's message in
    main.py, the [output] field in main2.py. *)
Theorem X7_answer_text_has_no_surrounding_whitespace (srv : provider) :
  (forall (request : Main.ChatRequest.t) (code : Z) (body : Main.ChatResponse.t),
      Main.endpoint srv request = Json code body ->
      exists choice message text,
        Main.ChatResponse.choices body = Some [choice]
        /\ Main.Choices.message choice = Some message
        /\ Main.ResponseMessage.content message = Some text
        /\ no_leading_space text
        /\ no_leading_space (rev text))
  /\ (forall (request : Main2.ChatRequest.t) (code : Z) (body : Main2.ChatResponse.t),
      Main2.endpoint srv request = Json code body ->
      no_leading_space (Main2.ChatResponse.output body)
      /\ no_leading_space (rev (Main2.ChatResponse.output body))).
Proof.
  split; intros request code body H.
  - destruct (Main_endpoint_200 srv request code body H)
      as [c [text [_ [Ht [_ [_ Hb]]]]]].
    destruct (client_outcome_text _ _ Ht) as [r [d [X [_ [_ [_ [_ ->]]]]]]].
    rewrite Main_compose_ok in Hb. injection Hb as <-.
    do 3 eexists. repeat split; apply strip_no_surrounding_space.
  - destruct (Main2_endpoint_200 srv request code body H)
      as [c [text [_ [Ht [_ ->]]]]].
    destruct (client_outcome_text _ _ Ht) as [r [d [X [_ [_ [_ [_ ->]]]]]]].
    apply strip_no_surrounding_space.
Qed.

Lemma X7_witness :
  Main2.endpoint (answering 201 (output_body sample_text)) sample_request2
  = Json 200 (Main2.ChatResponse.mk (lit "hi"))
  /\ no_leading_space (lit "hi")
  /\ no_leading_space (rev (lit "hi")).
Proof.
  split; [reflexivity|].
  apply (proj2 (X7_answer_text_has_no_surrounding_whitespace
                  (answering 201 (output_body sample_text)))
           sample_request2 200 (Main2.ChatResponse.mk (lit "hi"))).
  reflexivity.
Defined.


(** X9. The generator of the client never ends without an item: against
    any provider it raises or yields a text, in both files.  So the guard
    [if response is None] of the handlers is never taken, and main.py never
    prints ["No response generated"]. *)
Theorem X9_generator_raises_or_yields (srv : provider) :
  (forall (model : str) (messages : list dict) (proxy : option str),
      (exists e,
          result srv (Main.GizAI.create_async_generator model messages proxy) = inl e)
      \/ (exists text,
          result srv (Main.GizAI.create_async_generator model messages proxy)
          = inr (Some text)))
  /\ (forall (model : str) (messages : list dict) (proxy : option str),
      (exists e,
          result srv (Main2.GizAI.create_async_generator model messages proxy) = inl e)
      \/ (exists text,
          result srv (Main2.GizAI.create_async_generator model messages proxy)
          = inr (Some text)))
  /\ (forall request : Main.ChatRequest.t,
      ~ In (Line (lit "No response generated"))
          (printed (fst (run srv (Main.chat_completions request))))).
Proof.
  split; [|split].
  - intros model messages proxy. unfold result.
    pose proof (Main_client_run srv model messages proxy) as R. cbv zeta in R.
    rewrite R. apply client_outcome_cases.
  - intros model messages proxy. unfold result.
    pose proof (Main2_client_run srv model messages proxy) as R. cbv zeta in R.
    rewrite R. apply client_outcome_cases.
  - intros request.
    destruct (Main_run_cases srv request)
      as [[e [_ R]]|[ds [c [_ [_ [[e [_ R]]|[text [_ R]]]]]]]]; rewrite R;
      unfold not; cbn [fst printed In]; intros H;
      repeat (destruct H as [H|H]; [injection H as H; discriminate H|]);
      exact H.
Qed.

(** ** From the inbound JSON to the outbound JSON *)

Lemma Forall2_chain_map {A B C D : Type} (P : A -> B -> Prop) (Q : B -> C -> Prop)
    (R : A -> D -> Prop) (f : C -> D) (l1 : list A) (l2 : list B) (l3 : list C) :
  (forall a b c, P a b -> Q b c -> R a (f c)) ->
  Forall2 P l1 l2 -> Forall2 Q l2 l3 -> Forall2 R l1 (map f l3).
Proof.
  intros HR H12. revert l3.
  induction H12 as [|a b l1 l2 Hab _ IH]; intros l3 H23; inversion H23; subst; simpl.
  - constructor.
  - constructor; [eapply HR; eassumption | now apply IH].
Qed.

Lemma Forall2_map_r {A B D : Type} (P : A -> B -> Prop) (R : A -> D -> Prop)
    (g : B -> D) (l1 : list A) (l2 : list B) :
  (forall a b, P a b -> R a (g b)) ->
  Forall2 P l1 l2 -> Forall2 R l1 (map g l2).
Proof.
  intros HR H. induction H; simpl; constructor; auto.
Qed.

Lemma Main_of_value_value (s : str) (m : Main.MessageType) :
  Main.of_value s = Some m -> Main.value m = s.
Proof.
  unfold Main.of_value.
  destruct (str_eqb s (lit "human")) eqn:E1;
    [apply str_eqb_eq in E1; intros H; injection H as <-; now subst|].
  destruct (str_eqb s (lit "ai")) eqn:E2;
    [apply str_eqb_eq in E2; intros H; injection H as <-; now subst|].
  destruct (str_eqb s (lit "system")) eqn:E3;
    [apply str_eqb_eq in E3; intros H; injection H as <-; now subst|].
  destruct (str_eqb s (lit "assistant")) eqn:E4;
    [apply str_eqb_eq in E4; intros H; injection H as <-; now subst|].
  discriminate.
Qed.

Lemma Main2_of_value_value (s : str) (m : Main2.MessageType) :
  Main2.of_value s = Some m -> Main2.value m = s.
Proof.
  unfold Main2.of_value.
  destruct (str_eqb s (lit "human")) eqn:E1;
    [apply str_eqb_eq in E1; intros H; injection H as <-; now subst|].
  destruct (str_eqb s (lit "assistant")) eqn:E2;
    [apply str_eqb_eq in E2; intros H; injection H as <-; now subst|].
  destruct (str_eqb s (lit "system")) eqn:E3;
    [apply str_eqb_eq in E3; intros H; injection H as <-; now subst|].
  discriminate.
Qed.

(** The role of a message read by main.py, from the role string. *)
Lemma Main_validate_role_str (d : dict) (m : Main.MessageType) :
  Main.Message.validate_role d = Some (Some m) ->
  exists s,
    dict_get d (lit "role") = Some (VStr s)
    /\ Main.value m = Main_outbound_type s
    /\ m <> Main.ASSISTANT.
Proof.
  unfold Main.Message.validate_role.
  destruct (dict_get d (lit "role")) as [v|]; [|discriminate].
  destruct v; try discriminate.
  intros H. exists s. split; [reflexivity|].
  unfold Main.Message.map_role, Main.eq_str in H. unfold Main_outbound_type.
  destruct (str_eqb s (lit "user")) eqn:Eu.
  - injection H as <-. split; [reflexivity | discriminate].
  - destruct (str_eqb s (lit "assistant")) eqn:Ea.
    + injection H as <-. split; [reflexivity | discriminate].
    + cbn [Main.validate_optional_MessageType Main.validate_MessageType] in H.
      destruct (Main.of_value s) as [m'|] eqn:Ev; [|discriminate].
      injection H as <-. split; [now apply Main_of_value_value|].
      intros ->. apply Main_of_value_value in Ev. subst s. discriminate Ea.
Qed.

Lemma Main_entry_of_message (v : pyval) (msg : Main.Message.t) (dd : dict) :
  Main.Message.validate v = Some msg ->
  Main.message_dict msg = inr dd ->
  Main_entry v (VDict dd).
Proof.
  unfold Main.Message.validate. destruct v; try discriminate.
  destruct (optional_str d (lit "content")) as [content|] eqn:Hc; [|discriminate].
  destruct (Main.Message.validate_role d) as [role|] eqn:Hr; [|discriminate].
  destruct (optional_list d (lit "tool_calls")) as [tc|]; [|discriminate].
  destruct (optional_dict d (lit "function_call")) as [fc|]; [|discriminate].
  intros H. injection H as <-. unfold Main.message_dict. cbn [Main.Message.role Main.Message.content].
  destruct role as [m|]; [|discriminate].
  intros H. injection H as <-.
  destruct (Main_validate_role_str d m Hr) as [s [Hs [Hv Hm]]].
  exists d, s, content. repeat split; try assumption.
  - now rewrite Hv.
  - rewrite <- Hv. destruct m; simpl; auto.
Qed.

Lemma Main2_entry_of_message (v : pyval) (msg : Main2.Message.t) :
  Main2.Message.validate v = Some msg ->
  Main2_entry v (VDict (Main2.message_dict msg)).
Proof.
  unfold Main2.Message.validate. destruct v; try discriminate.
  destruct (dict_get d (lit "type")) as [ty|] eqn:Ht; [|discriminate].
  unfold required_str.
  destruct (dict_get d (lit "content")) as [c|] eqn:Hc; [|discriminate].
  destruct c; try discriminate.
  unfold Main2.validate_MessageType. destruct ty; try discriminate.
  destruct (Main2.of_value s0) as [m|] eqn:Hv; [|discriminate].
  intros H. injection H as <-.
  pose proof (Main2_of_value_value _ _ Hv) as Hm.
  subst s0. exists d, (Main2.value m), s. unfold Main2.message_dict.
  cbn [Main2.Message.type Main2.Message.content].
  repeat split; try assumption. destruct m; simpl; auto.
Qed.

(** X10. From inbound JSON to outbound JSON in main.py: in every call made
    for an inbound body, the [input.messages] list has one entry per
    inbound message, in order, each with exactly the keys [type] and
    [content]: the type is the inbound role with ["user"] renamed
    ["human"] and ["assistant"] renamed ["ai"], always one of [human],
    [ai], [system] and never ["assistant"]; the content is the inbound
    string, or null when it is null or absent; [tool_calls],
    [function_call] and unknown keys are not forwarded. *)
Theorem X10_main_entries (srv : provider) (model : str) (messages : list pyval)
    (temperature : option float) (c : Call) (l : list pyval) :
  In c (sent (fst (Main.post_chat_completions srv model messages temperature))) ->
  input_messages c = Some l ->
  Forall2 Main_entry messages l.
Proof.
  intros Hin Hl. rewrite Main_post_answer in Hin.
  destruct (Main.ChatRequest.validate model messages temperature) as [request|] eqn:Hv;
    [|destruct Hin].
  cbn [fst] in Hin. unfold sent in Hin. apply in_map_iff in Hin as [[c' a] [Hc Hin]].
  cbn [fst] in Hc. subst c'.
  apply Main_calls_In in Hin as [ds [Ht [-> _]]].
  change (Some (map VDict ds) = Some l) in Hl. injection Hl as <-.
  destruct (Main_validate_messages _ _ _ _ Hv) as [_ HF].
  apply Main_translate_inr in Ht.
  eapply Forall2_chain_map; [|exact HF|exact Ht].
  intros v msg dd. apply Main_entry_of_message.
Qed.

(** X11. From inbound JSON to outbound JSON in main2.py: in the call made
    for an inbound body, the [input.messages] list has one entry per
    inbound message, in order, each with exactly the keys [type] and
    [content] and the inbound strings under them, the type one of
    [human], [assistant], [system]; other keys are not forwarded. *)
Theorem X11_main2_entries (srv : provider) (model : str) (messages : list pyval)
    (mode : option str) (noStream : option bool) (c : Call) (l : list pyval) :
  In c (sent (fst (Main2.post_chat_completions srv model messages mode noStream))) ->
  input_messages c = Some l ->
  Forall2 Main2_entry messages l.
Proof.
  intros Hin Hl. rewrite Main2_post_answer in Hin.
  destruct (Main2.ChatRequest.validate model messages mode noStream) as [request|] eqn:Hv;
    [|destruct Hin].
  cbn [fst] in Hin. unfold sent in Hin. apply in_map_iff in Hin as [[c' a] [Hc Hin]].
  cbn [fst] in Hc. subst c'.
  apply Main2_calls_In in Hin as [-> _].
  change (Some (map VDict (Main2.translate (Main2.ChatRequest.messages request)))
          = Some l) in Hl.
  injection Hl as <-.
  destruct (Main2_validate_messages _ _ _ _ _ Hv) as [_ HF].
  unfold Main2.translate. rewrite map_map.
  eapply Forall2_map_r; [|exact HF].
  intros v msg. apply Main2_entry_of_message.
Qed.

Lemma X10_witness :
  In sample_call
     (sent (fst (Main.post_chat_completions (answering 201 (output_body sample_text))
                   (lit "qwen-coder-32b")
                   [ role_content "system" "be terse"; role_content "user" "hi" ]
                   None)))
  /\ Forall2 Main_entry
       [ role_content "system" "be terse"; role_content "user" "hi" ]
       [ VDict [ (lit "type", VStr (lit "system"));
                 (lit "content", VStr (lit "be terse")) ];
         VDict [ (lit "type", VStr (lit "human"));
                 (lit "content", VStr (lit "hi")) ] ].
Proof.
  split; [left; reflexivity|].
  apply (X10_main_entries (answering 201 (output_body sample_text))
           (lit "qwen-coder-32b")
           [ role_content "system" "be terse"; role_content "user" "hi" ]
           None sample_call);
    [left; reflexivity | reflexivity].
Defined.

Lemma X11_witness :
  In sample_call2
     (sent (fst (Main2.post_chat_completions (answering 201 (output_body sample_text))
                   (lit "qwen-coder-32b")
                   [ type_content "system" "be terse"; type_content "human" "hi" ]
                   None None)))
  /\ Forall2 Main2_entry
       [ type_content "system" "be terse"; type_content "human" "hi" ]
       [ VDict [ (lit "type", VStr (lit "system"));
                 (lit "content", VStr (lit "be terse")) ];
         VDict [ (lit "type", VStr (lit "human"));
                 (lit "content", VStr (lit "hi")) ] ].
Proof.
  split; [left; reflexivity|].
  apply (X11_main2_entries (answering 201 (output_body sample_text))
           (lit "qwen-coder-32b")
           [ type_content "system" "be terse"; type_content "human" "hi" ]
           None None sample_call2);
    [left; reflexivity | reflexivity].
Defined.

(** X12. An inbound body with no message at all is accepted by both
    adapters, and still sent: one call, whose [input.messages] list is
    empty. *)
Theorem X12_empty_messages_are_sent (srv : provider) (model : str) :
  (forall temperature : option float,
      exists c,
        sent (fst (Main.post_chat_completions srv model [] temperature)) = [c]
        /\ input_messages c = Some []
        /\ body_field c (lit "baseModel") = Some (VStr model))
  /\ (forall (mode : option str) (noStream : option bool),
      exists c,
        sent (fst (Main2.post_chat_completions srv model [] mode noStream)) = [c]
        /\ input_messages c = Some []
        /\ body_field c (lit "baseModel") = Some (VStr model)).
Proof.
  split.
  - intros temperature. rewrite Main_post_answer.
    cbn [Main.ChatRequest.validate validate_all fst].
    pose proof (Main_calls srv (Main.ChatRequest.mk model [] temperature)) as H.
    cbn [Main.ChatRequest.messages Main.translate] in H. cbv zeta in H.
    unfold sent. unfold calls in H. rewrite H. eexists. repeat split.
  - intros mode noStream. rewrite Main2_post_answer.
    cbn [Main2.ChatRequest.validate validate_all fst].
    match goal with |- context [Main2.chat_completions ?req] =>
      pose proof (Main2_calls srv req) as H end.
    cbv zeta in H. unfold sent. unfold calls in H. rewrite H. eexists. repeat split.
Qed.

(** *** The report of a refused body *)

Lemma dict_get_renderable (d : dict) (k : str) (x : pyval) :
  renderable (VDict d) = true -> dict_get d k = Some x -> renderable x = true.
Proof.
  cbn [renderable]. induction d as [|[k' v] d IH]; cbn [forallb dict_get]; [discriminate|].
  intros H. apply andb_true_iff in H as [Hkv Hd].
  apply andb_true_iff in Hkv as [_ Hv].
  destruct (str_eqb k' k); [intros E; injection E as <-; exact Hv | now apply IH].
Qed.

Lemma refused_field_renderable {A : Type} (read : dict -> str -> option A)
    (d : dict) (k : str) :
  renderable (VDict d) = true ->
  forallb renderable (refused_field read d k) = true.
Proof.
  intros H. unfold refused_field. destruct (read d k); [reflexivity|].
  destruct (dict_get d k) as [x|] eqn:E; cbn [forallb].
  - now rewrite (dict_get_renderable d k x H E).
  - now rewrite H.
Qed.

Lemma Main_refused_renderable (v : pyval) :
  renderable v = true ->
  forallb renderable (Main.Message.refused_inputs v) = true.
Proof.
  intros H. destruct v; try (cbn [Main.Message.refused_inputs forallb]; now rewrite H).
  cbn [Main.Message.refused_inputs]. rewrite !forallb_app.
  rewrite !refused_field_renderable by exact H. cbn [andb].
  rewrite andb_true_r. unfold Main.Message.refused_role.
  destruct (dict_get d (lit "role")) as [x|] eqn:E; [|reflexivity].
  pose proof (dict_get_renderable d _ x H E) as Hx.
  unfold Main.Message.map_role.
  destruct (Main.eq_str (Main.Plain x) (lit "user")); [reflexivity|].
  destruct (Main.eq_str (Main.Plain x) (lit "assistant")); [reflexivity|].
  destruct (Main.validate_optional_MessageType (Main.Plain x)); [reflexivity|].
  cbn [forallb]. now rewrite Hx.
Qed.

Lemma Main2_refused_renderable (v : pyval) :
  renderable v = true ->
  forallb renderable (Main2.Message.refused_inputs v) = true.
Proof.
  intros H. destruct v; try (cbn [Main2.Message.refused_inputs forallb]; now rewrite H).
  cbn [Main2.Message.refused_inputs]. rewrite forallb_app.
  now rewrite !refused_field_renderable by exact H.
Qed.

Lemma forallb_flat_map {A B : Type} (f : B -> bool) (g : A -> list B) (l : list A) :
  (forall a, In a l -> forallb f (g a) = true) ->
  forallb f (flat_map g l) = true.
Proof.
  induction l as [|a l IH]; cbn [flat_map]; [reflexivity|].
  intros H. rewrite forallb_app, (H a (or_introl eq_refl)). apply IH.
  intros b Hb. apply H. now right.
Qed.

(** A body whose messages can themselves be rendered has a report that can
    be rendered. *)
Lemma refused_inputs_renderable (messages : list pyval) :
  forallb renderable messages = true ->
  forallb renderable (Main.ChatRequest.refused_inputs messages) = true
  /\ forallb renderable (Main2.ChatRequest.refused_inputs messages) = true.
Proof.
  intros H. rewrite forallb_forall in H.
  split; apply forallb_flat_map; intros v Hv;
    [apply Main_refused_renderable | apply Main2_refused_renderable]; now apply H.
Qed.

(** X13. Inbound messages that the request models refuse: an element that
    is not a JSON object (either adapter), an object whose [type] is
    missing or whose [content] is missing or not a string (main2.py), an
    object whose [content] is neither a string nor null (main.py).  Nothing
    is printed or sent.  The answer is the 422 whose report repeats the
    refused inputs when that report can be rendered, which it can whenever
    the messages hold no lone surrogate and no NaN or infinity, and the
    server's 500 otherwise. *)
Theorem X13_malformed_message_is_refused (srv : provider) (model : str)
    (messages : list pyval) :
  (forall v : pyval,
      In v messages ->
      (forall d, v <> VDict d) ->
      (forall temperature,
          Main.post_chat_completions srv model messages temperature
          = ([], if forallb renderable (Main.ChatRequest.refused_inputs messages)
                 then Unprocessable else ServerError))
      /\ (forall mode noStream,
          Main2.post_chat_completions srv model messages mode noStream
          = ([], if forallb renderable (Main2.ChatRequest.refused_inputs messages)
                 then Unprocessable else ServerError)))
  /\ (forall d : dict,
      In (VDict d) messages ->
      dict_get d (lit "type") = None \/ required_str d (lit "content") = None ->
      forall mode noStream,
        Main2.post_chat_completions srv model messages mode noStream
        = ([], if forallb renderable (Main2.ChatRequest.refused_inputs messages)
               then Unprocessable else ServerError))
  /\ (forall d : dict,
      In (VDict d) messages ->
      optional_str d (lit "content") = None ->
      forall temperature,
        Main.post_chat_completions srv model messages temperature
        = ([], if forallb renderable (Main.ChatRequest.refused_inputs messages)
               then Unprocessable else ServerError))
  /\ (forallb renderable messages = true ->
      forallb renderable (Main.ChatRequest.refused_inputs messages) = true
      /\ forallb renderable (Main2.ChatRequest.refused_inputs messages) = true).
Proof.
  split; [|split; [|split]].
  - intros v Hin Hv. split.
    + intros temperature.
      unfold Main.post_chat_completions, Main.ChatRequest.validate.
      rewrite (validate_all_In Main.Message.validate messages v Hin); [reflexivity|].
      destruct v; try reflexivity. now destruct (Hv d).
    + intros mode noStream.
      unfold Main2.post_chat_completions, Main2.ChatRequest.validate.
      rewrite (validate_all_In Main2.Message.validate messages v Hin); [reflexivity|].
      destruct v; try reflexivity. now destruct (Hv d).
  - intros d Hin Hd mode noStream.
    unfold Main2.post_chat_completions, Main2.ChatRequest.validate.
    rewrite (validate_all_In Main2.Message.validate messages _ Hin); [reflexivity|].
    unfold Main2.Message.validate. destruct Hd as [Hd|Hd]; rewrite Hd; [reflexivity|].
    destruct (dict_get d (lit "type")); reflexivity.
  - intros d Hin Hd temperature.
    unfold Main.post_chat_completions, Main.ChatRequest.validate.
    rewrite (validate_all_In Main.Message.validate messages _ Hin); [reflexivity|].
    unfold Main.Message.validate. rewrite Hd. reflexivity.
  - apply refused_inputs_renderable.
Qed.

Lemma X13_witness :
  In (VStr (lit "hi")) [ role_content "user" "hi"; VStr (lit "hi") ]
  /\ Main.post_chat_completions (answering 201 (output_body sample_text))
       (lit "qwen-coder-32b") [ role_content "user" "hi"; VStr (lit "hi") ] None
     = ([], Unprocessable)
  /\ Main2.post_chat_completions (answering 201 (output_body sample_text))
       (lit "qwen-coder-32b") [ role_content "user" "hi"; VStr (lit "hi") ] None None
     = ([], Unprocessable).
Proof.
  assert (Hin : In (VStr (lit "hi")) [ role_content "user" "hi"; VStr (lit "hi") ])
    by (right; left; reflexivity).
  destruct (proj1 (X13_malformed_message_is_refused
                     (answering 201 (output_body sample_text))
                     (lit "qwen-coder-32b")
                     [ role_content "user" "hi"; VStr (lit "hi") ])
              (VStr (lit "hi")) Hin
              (fun d (H : VStr (lit "hi") = VDict d) =>
                 eq_ind (VStr (lit "hi"))
                   (fun x => match x with VStr _ => True | _ => False end)
                   I (VDict d) H))
    as [H1 H2].
  split; [exact Hin|]. split; [apply H1 | apply H2].
Defined.

(** ** The enumerations and the validators of roles *)

(** X14. The values of each enumeration are pairwise distinct, so no member
    is an alias of another: looking a member's value up gives the member
    back, and a string that names a member is that member's value. *)
Theorem X14_enum_values_round_trip :
  (forall m : Main.MessageType, Main.of_value (Main.value m) = Some m)
  /\ (forall (s : str) (m : Main.MessageType),
      Main.of_value s = Some m -> Main.value m = s)
  /\ (forall m : Main2.MessageType, Main2.of_value (Main2.value m) = Some m)
  /\ (forall (s : str) (m : Main2.MessageType),
      Main2.of_value s = Some m -> Main2.value m = s).
Proof.
  split; [|split; [|split]].
  - intros []; reflexivity.
  - apply Main_of_value_value.
  - intros []; reflexivity.
  - apply Main2_of_value_value.
Qed.

Lemma X14_witness :
  Main.of_value (lit "ai") = Some Main.AI /\ Main.value Main.AI = lit "ai".
Proof.
  split; [reflexivity|].
  apply (proj1 (proj2 X14_enum_values_round_trip) (lit "ai") Main.AI).
  reflexivity.
Defined.

(** X15. The two role validators of main.py on a member of the
    enumeration, which compares equal to the string of its value.  A
    response message built with any member keeps it; built with a string,
    it is accepted exactly for the five strings user, assistant, system,
    human and ai; built without a role, it is refused, the role being
    required there.  The request-side validator turns the member
    [ASSISTANT] itself into [AI]. *)
Theorem X15_validators_on_members :
  (forall (content : option str) (m : Main.MessageType),
      Main.ResponseMessage.new content (Main.Member m)
      = inr (Main.ResponseMessage.mk content m None None))
  /\ (forall (content : option str) (s : str),
      (exists r, Main.ResponseMessage.new content (Main.Plain (VStr s)) = inr r)
      <-> In s [lit "user"; lit "assistant"; lit "system"; lit "human"; lit "ai"])
  /\ (forall content : option str,
      exists e, Main.ResponseMessage.new content (Main.Plain VNone) = inl e)
  /\ Main.Message.map_role (Main.Member Main.ASSISTANT) = Main.Member Main.AI
  /\ Main.validate_optional_MessageType
       (Main.Message.map_role (Main.Member Main.ASSISTANT))
     = Some (Some Main.AI).
Proof.
  split; [|split; [|split; [|split]]]; try reflexivity.
  - intros content []; reflexivity.
  - intros content s. split.
    + intros [r Hr]. unfold Main.ResponseMessage.new, Main.ResponseMessage.validate_role,
        Main.ResponseMessage.map_role, Main.eq_str in Hr.
      destruct (str_eqb s (lit "user")) eqn:E1;
        [apply str_eqb_eq in E1; subst; simpl; auto|].
      destruct (str_eqb s (lit "assistant")) eqn:E2;
        [apply str_eqb_eq in E2; subst; simpl; auto|].
      destruct (str_eqb s (lit "system")) eqn:E3;
        [apply str_eqb_eq in E3; subst; simpl; auto|].
      cbn [Main.validate_MessageType] in Hr.
      destruct (Main.of_value s) as [m|] eqn:Ev; [|discriminate].
      apply Main_of_value_value in Ev. subst s. destruct m; simpl; auto 6.
    + intros H. simpl in H.
      destruct H as [<-|[<-|[<-|[<-|[<-|[]]]]]]; eexists; reflexivity.
  - intros content. eexists. reflexivity.
Qed.

Lemma X15_witness :
  In (lit "human") [lit "user"; lit "assistant"; lit "system"; lit "human"; lit "ai"]
  /\ exists r,
       Main.ResponseMessage.new None (Main.Plain (VStr (lit "human"))) = inr r.
Proof.
  assert (H : In (lit "human")
                [lit "user"; lit "assistant"; lit "system"; lit "human"; lit "ai"])
    by (right; right; right; left; reflexivity).
  split; [exact H|].
  apply (proj2 (proj1 (proj2 X15_validators_on_members) None (lit "human")) H).
Defined.

(** ** The text that comes back *)

Lemma lstrip_clean (X : str) : no_leading_space X -> lstrip X = X.
Proof. destruct X as [|c X]; simpl; [reflexivity|]. now intros ->. Qed.

Lemma strip_clean (X : str) :
  no_leading_space X -> no_leading_space (rev X) -> strip X = X.
Proof.
  intros H1 H2. unfold strip, rstrip.
  rewrite (lstrip_clean X H1), (lstrip_clean (rev X) H2). apply rev_involutive.
Qed.

Lemma lstrip_blank (X : str) : Forall (fun c => isspace c = true) X -> lstrip X = [].
Proof. induction 1 as [|c X Hc _ IH]; simpl; [reflexivity|]. now rewrite Hc. Qed.

Lemma strip_blank (X : str) : Forall (fun c => isspace c = true) X -> strip X = [].
Proof. intros H. unfold strip, rstrip. now rewrite (lstrip_blank X H). Qed.

(** X16. A provider text that neither begins nor ends with whitespace comes
    back as it is, inner whitespace included: it is the text main.py builds
    its envelope around and the [output] of main2.py, and the answer is 200
    with it whenever it can be encoded (in main.py, with the model the
    envelope repeats); otherwise the server answers its 500. *)
Theorem X16_clean_output_is_returned_verbatim (srv : provider) (r : Response)
    (d : dict) (X : str) :
  status r = 201 ->
  json r = inr (VDict d) ->
  dict_get d (lit "output") = Some (VStr X) ->
  no_leading_space X ->
  no_leading_space (rev X) ->
  (forall (request : Main.ChatRequest.t) (c : Call),
      In (c, inr r) (calls srv (Main.chat_completions request)) ->
      exists body,
        Main.compose X (Main.ChatRequest.model request) = inr body
        /\ Main.endpoint srv request
           = if encodable X && encodable (Main.ChatRequest.model request)
             then Json 200 body else ServerError)
  /\ (forall (request : Main2.ChatRequest.t) (c : Call),
      In (c, inr r) (calls srv (Main2.chat_completions request)) ->
      Main2.endpoint srv request
      = if encodable X then Json 200 (Main2.ChatResponse.mk X) else ServerError).
Proof.
  intros Hs Hj Ho H1 H2.
  pose proof (client_outcome_success r d X Hs Hj Ho) as Hc.
  rewrite (strip_clean X H1 H2) in Hc.
  split; intros request c Hin.
  - rewrite (Main_endpoint_of_call srv request c (inr r) Hin), Hc.
    destruct (Main_respond_compose X (Main.ChatRequest.model request))
      as [body [Hb [-> _]]].
    now exists body.
  - rewrite (Main2_endpoint_of_call srv request c (inr r) Hin), Hc.
    apply Main2_respond_text.
Qed.

Lemma X16_witness :
  no_leading_space (lit "a  b")
  /\ no_leading_space (rev (lit "a  b"))
  /\ Main2.endpoint (answering 201 (output_body (lit "a  b"))) sample_request2
     = Json 200 (Main2.ChatResponse.mk (lit "a  b")).
Proof.
  split; [reflexivity|]. split; [reflexivity|].
  apply (proj2 (X16_clean_output_is_returned_verbatim
                  (answering 201 (output_body (lit "a  b")))
                  (mkResponse 201 (output_body (lit "a  b")))
                  [ (lit "output", VStr (lit "a  b")) ] (lit "a  b")
                  eq_refl eq_refl eq_refl eq_refl eq_refl)
           sample_request2 sample_call2).
  left. reflexivity.
Defined.

(** X17. A provider text that is empty or all whitespace is still a
    success, the guard [if response is None] not being one on empty
    strings: main2.py answers 200 with the empty text, and so does main.py
    whenever the model its envelope repeats can be encoded (otherwise the
    server answers its 500). *)
Theorem X17_blank_output_is_an_empty_success (srv : provider) (r : Response)
    (d : dict) (X : str) :
  status r = 201 ->
  json r = inr (VDict d) ->
  dict_get d (lit "output") = Some (VStr X) ->
  Forall (fun c => isspace c = true) X ->
  (forall (request : Main.ChatRequest.t) (c : Call),
      In (c, inr r) (calls srv (Main.chat_completions request)) ->
      exists body,
        Main.compose [] (Main.ChatRequest.model request) = inr body
        /\ Main.endpoint srv request
           = if encodable (Main.ChatRequest.model request)
             then Json 200 body else ServerError)
  /\ (forall (request : Main2.ChatRequest.t) (c : Call),
      In (c, inr r) (calls srv (Main2.chat_completions request)) ->
      Main2.endpoint srv request = Json 200 (Main2.ChatResponse.mk [])).
Proof.
  intros Hs Hj Ho HX.
  pose proof (client_outcome_success r d X Hs Hj Ho) as Hc.
  rewrite (strip_blank X HX) in Hc.
  split; intros request c Hin.
  - rewrite (Main_endpoint_of_call srv request c (inr r) Hin), Hc.
    destruct (Main_respond_compose [] (Main.ChatRequest.model request))
      as [body [Hb [-> _]]].
    now exists body.
  - now rewrite (Main2_endpoint_of_call srv request c (inr r) Hin), Hc.
Qed.

Lemma X17_witness :
  Forall (fun c => isspace c = true) [32; 10; 9]%N
  /\ Main2.endpoint (answering 201 (output_body [32; 10; 9]%N)) sample_request2
     = Json 200 (Main2.ChatResponse.mk []).
Proof.
  assert (H : Forall (fun c => isspace c = true) [32; 10; 9]%N)
    by (repeat constructor).
  split; [exact H|].
  apply (proj2 (X17_blank_output_is_an_empty_success
                  (answering 201 (output_body [32; 10; 9]%N))
                  (mkResponse 201 (output_body [32; 10; 9]%N))
                  [ (lit "output", VStr [32; 10; 9]%N) ] [32; 10; 9]%N
                  eq_refl eq_refl eq_refl H)
           sample_request2 sample_call2).
  left. reflexivity.
Defined.

(** X18. A 201 whose body is an object without [output]: the detail of the
    500 is the name of the missing key in single quotes, the text of a
    [KeyError], and main.py prints it after ["Error: "]. *)
Theorem X18_missing_output_detail (srv : provider) (r : Response) (d : dict) :
  status r = 201 ->
  json r = inr (VDict d) ->
  dict_get d (lit "output") = None ->
  (forall (request : Main.ChatRequest.t) (c : Call),
      In (c, inr r) (calls srv (Main.chat_completions request)) ->
      Main.endpoint srv request = Detail 500 (lit "'output'")
      /\ printed (fst (run srv (Main.chat_completions request)))
         = [Line (lit "Error: 'output'")])
  /\ (forall (request : Main2.ChatRequest.t) (c : Call),
      In (c, inr r) (calls srv (Main2.chat_completions request)) ->
      Main2.endpoint srv request = Detail 500 (lit "'output'")).
Proof.
  intros Hs Hj Ho.
  assert (Hc : client_outcome (inr r) = inl (KeyError (lit "output"))).
  { unfold client_outcome. rewrite Hs, Hj. cbn [Z.eqb Pos.eqb subscript].
    now rewrite Ho. }
  split; intros request c Hin.
  - split.
    + now rewrite (Main_endpoint_of_call srv request c (inr r) Hin), Hc.
    + apply Main_calls_In in Hin as [ds [Ht [Hcall [Ha _]]]].
      pose proof (Main_run_translated srv request ds Ht) as R. cbv zeta in R.
      rewrite R, <- Hcall, <- Ha, Hc. reflexivity.
  - now rewrite (Main2_endpoint_of_call srv request c (inr r) Hin), Hc.
Qed.

Lemma X18_witness :
  dict_get [ (lit "result", VStr (lit "hi")) ] (lit "output") = None
  /\ Main.endpoint
       (answering 201 (inr (VDict [ (lit "result", VStr (lit "hi")) ])))
       sample_request
     = Detail 500 (lit "'output'")
  /\ printed (fst (run (answering 201 (inr (VDict [ (lit "result", VStr (lit "hi")) ])))
                     (Main.chat_completions sample_request)))
     = [Line (lit "Error: 'output'")].
Proof.
  split; [reflexivity|].
  apply (proj1 (X18_missing_output_detail
                  (answering 201 (inr (VDict [ (lit "result", VStr (lit "hi")) ])))
                  (mkResponse 201 (inr (VDict [ (lit "result", VStr (lit "hi")) ])))
                  [ (lit "result", VStr (lit "hi")) ]
                  eq_refl eq_refl eq_refl)
           sample_request sample_call).
  left. reflexivity.
Defined.

(** X19. The whole outbound body: in every call of either handler it is the
    object with the four keys [model], [baseModel], [input] and [noStream],
    in that order, where [input] holds the message list and the mode
    ["chat"] and nothing else; no other field of the inbound request is
    sent. *)
Theorem X19_outbound_body_shape (srv : provider) :
  (forall request : Main.ChatRequest.t,
      Forall (fun c =>
                exists l,
                  json_data c
                  = VDict [ (lit "model", VStr (lit "chat"));
                            (lit "baseModel", VStr (Main.ChatRequest.model request));
                            (lit "input",
                             VDict [ (lit "messages", VList l);
                                     (lit "mode", VStr (lit "chat")) ]);
                            (lit "noStream", VBool true) ])
        (map fst (calls srv (Main.chat_completions request))))
  /\ (forall request : Main2.ChatRequest.t,
      Forall (fun c =>
                exists l,
                  json_data c
                  = VDict [ (lit "model", VStr (lit "chat"));
                            (lit "baseModel", VStr (Main2.ChatRequest.model request));
                            (lit "input",
                             VDict [ (lit "messages", VList l);
                                     (lit "mode", VStr (lit "chat")) ]);
                            (lit "noStream", VBool true) ])
        (map fst (calls srv (Main2.chat_completions request)))).
Proof.
  split; intros request.
  - pose proof (Main_calls srv request) as H.
    destruct (Main.translate (Main.ChatRequest.messages request)) as [e|ds].
    + rewrite H. constructor.
    + cbv zeta in H. rewrite H. constructor; [|constructor].
      eexists. reflexivity.
  - pose proof (Main2_calls srv request) as H. cbv zeta in H. rewrite H.
    constructor; [|constructor]. eexists. reflexivity.
Qed.

(** ** Role aliases, message by message *)

(** A message read with a role string has a role. *)
Lemma Main_validate_has_role (d : dict) (s : str) (msg : Main.Message.t) :
  dict_get d (lit "role") = Some (VStr s) ->
  Main.Message.validate (VDict d) = Some msg ->
  Main.Message.role msg <> None.
Proof.
  intros Hd. unfold Main.Message.validate, Main.Message.validate_role. rewrite Hd.
  destruct (optional_str d (lit "content")) as [c|]; [|discriminate].
  unfold Main.Message.map_role, Main.eq_str.
  destruct (str_eqb s (lit "user"));
    [|destruct (str_eqb s (lit "assistant"));
      [|cbn [Main.validate_optional_MessageType Main.validate_MessageType];
        destruct (Main.of_value s); cbn [option_map]]];
    try discriminate;
    destruct (optional_list d (lit "tool_calls")) as [tc|]; try discriminate;
    destruct (optional_dict d (lit "function_call")) as [fc|]; try discriminate;
    intros H; injection H as <-; discriminate.
Qed.

(** C5, as stated, fails: in main.py an inbound message of role
    ["assistant"] leaves with the provider label ["ai"], not ["assistant"],
    while the validator of the response message maps the same string to the
    member whose value is ["assistant"]. *)
Lemma C5_counterexample :
  (exists c,
      sent (fst (Main.post_chat_completions (answering 201 (output_body sample_text))
                   (lit "qwen-coder-32b") [ role_content "assistant" "hi" ] None))
      = [c]
      /\ input_messages c
         = Some [ VDict [ (lit "type", VStr (lit "ai"));
                          (lit "content", VStr (lit "hi")) ] ])
  /\ str_eqb (lit "ai") (lit "assistant") = false
  /\ option_map Main.value
       (Main.ResponseMessage.validate_role (Main.Plain (VStr (lit "assistant"))))
     = Some (lit "assistant").
Proof.
  split; [|split; reflexivity].
  eexists. split; reflexivity.
Qed.

(** C5, amended.  In main.py, for every inbound message of an accepted
    body, the entry sent at the same position has the provider label
    ["human"] when the role is ["user"], the label ["ai"] when the role is
    ["assistant"], and the role itself otherwise; a call is made whenever
    every message has a role string.  The validator of the response message
    maps ["user"] to the member of value ["human"] too, but ["assistant"]
    to the member of value ["assistant"], which is the role of the composed
    message.  On every role string other than ["assistant"] the two
    validators agree. *)
Theorem C5_role_aliases :
  (forall (srv : provider) (model : str) (messages : list pyval)
          (temperature : option float) (c : Call) (l : list pyval),
      In c (sent (fst (Main.post_chat_completions srv model messages temperature))) ->
      input_messages c = Some l ->
      Forall2 (fun inb out =>
                 exists (d : dict) (s ty : str) (content : pyval),
                   inb = VDict d
                   /\ dict_get d (lit "role") = Some (VStr s)
                   /\ out = VDict [ (lit "type", VStr ty); (lit "content", content) ]
                   /\ (s = lit "user" -> ty = lit "human")
                   /\ (s = lit "assistant" -> ty = lit "ai")
                   /\ (s <> lit "user" -> s <> lit "assistant" -> ty = s))
        messages l)
  /\ (forall (srv : provider) (model : str) (messages : list pyval)
          (temperature : option float) (request : Main.ChatRequest.t),
      Main.ChatRequest.validate model messages temperature = Some request ->
      (forall v, In v messages ->
                 exists d s, v = VDict d /\ dict_get d (lit "role") = Some (VStr s)) ->
      exists c l,
        sent (fst (Main.post_chat_completions srv model messages temperature)) = [c]
        /\ input_messages c = Some l)
  /\ (forall (srv : provider) (model content : str) (temperature : option float),
      exists c,
        sent (fst (Main.post_chat_completions srv model
                     [ VDict [ (lit "role", VStr (lit "user"));
                               (lit "content", VStr content) ] ] temperature))
        = [c]
        /\ input_messages c
           = Some [ VDict [ (lit "type", VStr (lit "human"));
                            (lit "content", VStr content) ] ])
  /\ (forall (srv : provider) (model content : str) (temperature : option float),
      exists c,
        sent (fst (Main.post_chat_completions srv model
                     [ VDict [ (lit "role", VStr (lit "assistant"));
                               (lit "content", VStr content) ] ] temperature))
        = [c]
        /\ input_messages c
           = Some [ VDict [ (lit "type", VStr (lit "ai"));
                            (lit "content", VStr content) ] ])
  /\ option_map Main.value
       (Main.ResponseMessage.validate_role (Main.Plain (VStr (lit "user"))))
     = Some (lit "human")
  /\ option_map Main.value
       (Main.ResponseMessage.validate_role (Main.Plain (VStr (lit "assistant"))))
     = Some (lit "assistant")
  /\ Main.ResponseMessage.map_role (Main.Member Main.ASSISTANT)
     = Main.Member Main.ASSISTANT
  /\ (forall s : str,
      s <> lit "assistant" ->
      Main.validate_optional_MessageType (Main.Message.map_role (Main.Plain (VStr s)))
      = option_map Some (Main.ResponseMessage.validate_role (Main.Plain (VStr s)))).
Proof.
  split; [|split; [|split; [|split; [|split; [|split; [|split]]]]]];
    try reflexivity.
  - intros srv model messages temperature c l Hin Hl.
    rewrite Main_post_answer in Hin.
    destruct (Main.ChatRequest.validate model messages temperature)
      as [request|] eqn:Hv; [|destruct Hin].
    cbn [fst] in Hin. unfold sent in Hin.
    apply in_map_iff in Hin as [[c' a] [Hc Hin]]. cbn [fst] in Hc. subst c'.
    apply Main_calls_In in Hin as [ds [Ht [-> _]]].
    change (Some (map VDict ds) = Some l) in Hl. injection Hl as <-.
    destruct (Main_validate_messages _ _ _ _ Hv) as [_ HF].
    apply Main_translate_inr in Ht.
    eapply Forall2_chain_map; [|exact HF|exact Ht].
    intros v msg dd Hval Hdict.
    destruct (Main_entry_of_message v msg dd Hval Hdict)
      as [d [s [content [-> [Hs [_ [Hout _]]]]]]].
    exists d, s, (Main_outbound_type s),
      (match content with Some x => VStr x | None => VNone end).
    split; [reflexivity|]. split; [exact Hs|]. split; [exact Hout|].
    unfold Main_outbound_type. split; [|split].
    + intros ->. reflexivity.
    + intros ->. reflexivity.
    + intros Hu Ha. now rewrite (str_eqb_neq _ _ Hu), (str_eqb_neq _ _ Ha).
  - intros srv model messages temperature request Hv Hroles.
    rewrite Main_post_answer, Hv. cbn [fst].
    destruct (Main_validate_messages _ _ _ _ Hv) as [_ HF].
    assert (Hall : Forall (fun msg => Main.Message.role msg <> None)
                     (Main.ChatRequest.messages request)).
    { clear Hv. induction HF as [|v msg vs msgs Hval _ IH]; constructor.
      - destruct (Hroles v (or_introl eq_refl)) as [d [s [-> Hd]]].
        exact (Main_validate_has_role d s msg Hd Hval).
      - apply IH. intros w Hw. apply Hroles. now right. }
    destruct (Main_translate_total _ Hall) as [ds Hds].
    pose proof (Main_calls srv request) as H. rewrite Hds in H. cbv zeta in H.
    unfold sent. unfold calls in H. rewrite H. do 2 eexists. split; reflexivity.
  - intros srv model content temperature.
    apply Main_post_single
      with (msg := Main.Message.mk (Some content) (Some Main.HUMAN) None None);
      reflexivity.
  - intros srv model content temperature.
    apply Main_post_single
      with (msg := Main.Message.mk (Some content) (Some Main.AI) None None);
      reflexivity.
  - intros s Hs.
    unfold Main.ResponseMessage.validate_role, Main.Message.map_role,
      Main.ResponseMessage.map_role, Main.eq_str.
    rewrite (str_eqb_neq _ _ Hs).
    destruct (str_eqb s (lit "user")) eqn:Eu; [reflexivity|].
    destruct (str_eqb s (lit "system")) eqn:Es; [|reflexivity].
    apply str_eqb_eq in Es. subst s. reflexivity.
Qed.

Lemma C5_witness :
  In (mkCall Main.GizAI.api_endpoint Main.GizAI.headers
        (Main.GizAI.data (lit "qwen-coder-32b")
           [ [ (lit "type", VStr (lit "ai"));
               (lit "content", VStr (lit "be terse")) ];
             [ (lit "type", VStr (lit "human"));
               (lit "content", VStr (lit "hi")) ] ])
        None)
     (sent (fst (Main.post_chat_completions (answering 201 (output_body sample_text))
                   (lit "qwen-coder-32b")
                   [ role_content "assistant" "be terse"; role_content "user" "hi" ]
                   None)))
  /\ Forall2 (fun inb out =>
                exists (d : dict) (s ty : str) (content : pyval),
                  inb = VDict d
                  /\ dict_get d (lit "role") = Some (VStr s)
                  /\ out = VDict [ (lit "type", VStr ty); (lit "content", content) ]
                  /\ (s = lit "user" -> ty = lit "human")
                  /\ (s = lit "assistant" -> ty = lit "ai")
                  /\ (s <> lit "user" -> s <> lit "assistant" -> ty = s))
       [ role_content "assistant" "be terse"; role_content "user" "hi" ]
       [ VDict [ (lit "type", VStr (lit "ai"));
                 (lit "content", VStr (lit "be terse")) ];
         VDict [ (lit "type", VStr (lit "human"));
                 (lit "content", VStr (lit "hi")) ] ].
Proof.
  split; [left; reflexivity|].
  apply (proj1 C5_role_aliases (answering 201 (output_body sample_text))
           (lit "qwen-coder-32b")
           [ role_content "assistant" "be terse"; role_content "user" "hi" ]
           None
           (mkCall Main.GizAI.api_endpoint Main.GizAI.headers
              (Main.GizAI.data (lit "qwen-coder-32b")
                 [ [ (lit "type", VStr (lit "ai"));
                     (lit "content", VStr (lit "be terse")) ];
                   [ (lit "type", VStr (lit "human"));
                     (lit "content", VStr (lit "hi")) ] ])
              None));
    [left; reflexivity | reflexivity].
Defined.
